(** * A shallow embedding of the in-memory user service ([main.py])

    The service keeps one process-wide list, [users_db], and exposes five
    routes over it.  Each endpoint function of [main.py] is embedded as a
    computation in a small state-and-exception monad over the list; the
    framework's part (body validation by the [UserCreate] model, the encoding
    of what an endpoint returns, the mapping of raised exceptions to
    responses) is the function [app].  Requests are served one at a time.

    The request logger only writes to the process log and hands the response
    through unchanged; the log is not part of the state modelled here. *)

From Stdlib Require Import String Ascii List ZArith NArith Bool Lia.
Import ListNotations.

Local Open Scope Z_scope.

(** ** Python values used by the service *)

Module Py.

(** A Python [str] is a sequence of Unicode code points. *)
Definition str : Type := list N.

(** An ASCII literal of the source, as a [str]. *)
Definition lit (s : string) : str := map N_of_ascii (list_ascii_of_string s).

(** [a == b] on [str]. *)
Fixpoint eqb (a b : str) : bool :=
  match a, b with
  | [], [] => true
  | x :: a', y :: b' => N.eqb x y && eqb a' b'
  | _, _ => false
  end.

(** [c in v] for a one-character [c]. *)
Definition contains (c : N) (v : str) : bool := existsb (N.eqb c) v.

(** The characters [str.strip()] removes when called without argument:
    those for which [str.isspace] holds. *)
Definition isspace (c : N) : bool :=
  ((9 <=? c) && (c <=? 13) || (28 <=? c) && (c <=? 32)
   || (c =? 133) || (c =? 160) || (c =? 5760)
   || (8192 <=? c) && (c <=? 8202)
   || (c =? 8232) || (c =? 8233) || (c =? 8239) || (c =? 8287)
   || (c =? 12288))%N.

Fixpoint lstrip (v : str) : str :=
  match v with
  | [] => []
  | c :: v' => if isspace c then lstrip v' else v
  end.

Definition rstrip (v : str) : str := rev (lstrip (rev v)).

Definition strip (v : str) : str := rstrip (lstrip v).

(** A surrogate code point, U+D800 to U+DFFF.  A [str] may hold one on its
    own (the JSON text of a body can spell it with an escape); such a [str]
    has no UTF-8 encoding. *)
Definition surrogate (c : N) : bool := ((55296 <=? c) && (c <=? 57343))%N.

(** [v.encode("utf-8")] succeeds. *)
Definition utf8_ok (v : str) : bool := forallb (fun c => negb (surrogate c)) v.

(** Truth value of a [str]: the empty string is falsy. *)
Definition truthy (v : str) : bool :=
  match v with [] => false | _ => true end.

(** One bound of a slice with step 1 on a sequence of length [n]:
    a negative bound counts from the end, then the bound is clamped
    to [0 .. n]. *)
Definition slice_bound (n i : Z) : Z :=
  if i <? 0 then Z.max (i + n) 0 else Z.min i n.

(** [l[start:stop]]. *)
Definition slice {A : Type} (l : list A) (start stop : Z) : list A :=
  let n := Z.of_nat (length l) in
  let lo := slice_bound n start in
  let hi := slice_bound n stop in
  firstn (Z.to_nat (hi - lo)) (skipn (Z.to_nat lo) l).

End Py.

(** ** Data model *)

(** The request model: three required fields. *)
Module UserCreate.
Record t : Type := mk { id : Z; name : Py.str; email : Py.str }.
End UserCreate.

(** The response model. *)
Module UserResponse.
Record t : Type := mk { id : Z; name : Py.str; email : Py.str }.
End UserResponse.

(** An entry of the store: the dict [{"id": _, "name": _, "email": _}]
    that [create_user] builds. *)
Module UserDict.
Record t : Type := mk { id : Z; name : Py.str; email : Py.str }.
End UserDict.

(** The in-memory storage, in insertion order. *)
Definition users_db_t : Type := list UserDict.t.

(** [users_db = []] at process start. *)
Definition users_db : users_db_t := [].

(** ** Validation of the request body *)

(** The JSON body of [POST /users] before validation: each field of the
    model is present with a value of its declared type, or absent. *)
Record body : Type := mk_body {
  body_id : option Z;
  body_name : option Py.str;
  body_email : option Py.str
}.

Inductive field : Type := f_id | f_name | f_email.

(** An error of validation: a required field is absent, or the validator
    of a field raised a [ValueError] with message [msg]. *)
Inductive error_detail : Type :=
| missing (loc : field)
| value_error (loc : field) (msg : string).

(** [@validator('name')] *)
Definition name_required (v : Py.str) : Py.str + string :=
  if negb (Py.truthy v) || negb (Py.truthy (Py.strip v))
  then inr "Name is required"%string
  else inl v.

(** [@validator('email')] *)
Definition email_must_contain_at (v : Py.str) : Py.str + string :=
  if negb (Py.contains 64%N v)
  then inr "Email must contain @"%string
  else inl v.

(** A field without validator is kept as it is. *)
Definition no_validator {A : Type} (v : A) : A + string := inl v.

(** One field of the model: a required field that is absent is an error,
    and the field's validator runs on a value that is present. *)
Definition validate_field {A : Type} (loc : field) (v : option A)
    (validator : A -> A + string) : A + list error_detail :=
  match v with
  | None => inr [missing loc]
  | Some x =>
      match validator x with
      | inl y => inl y
      | inr msg => inr [value_error loc msg]
      end
  end.

Definition errors_of {A : Type} (r : A + list error_detail) : list error_detail :=
  match r with inl _ => [] | inr es => es end.

(** Construction of a [UserCreate] from a body: all fields are checked and
    the errors of all of them are reported together. *)
Definition validate (b : body) : UserCreate.t + list error_detail :=
  let ri := validate_field f_id (body_id b) no_validator in
  let rn := validate_field f_name (body_name b) name_required in
  let re := validate_field f_email (body_email b) email_must_contain_at in
  match ri, rn, re with
  | inl i, inl n, inl e => inl (UserCreate.mk i n e)
  | _, _, _ => inr (errors_of ri ++ errors_of rn ++ errors_of re)
  end.

(** The response model built from the fields of an entry of the store. *)
Definition to_response (user : UserDict.t) : UserResponse.t :=
  UserResponse.mk (UserDict.id user) (UserDict.name user) (UserDict.email user).

(** ** Responses *)

(** The JSON documents the service sends. *)
Inductive content : Type :=
| status_obj (status : string)
| debug_obj (users_count : Z) (users : list UserDict.t)
| user_obj (u : UserResponse.t)
| user_list (us : list UserResponse.t)
| error_obj (error : string)
| detail_obj (detail : string)
| detail_errors (detail : list error_detail).

Record response : Type := JSONResponse {
  status_code : Z;
  resp_content : content
}.

(** An entry whose two strings can be encoded. *)
Definition clean (u : UserDict.t) : bool :=
  Py.utf8_ok (UserDict.name u) && Py.utf8_ok (UserDict.email u).

Definition clean_response (u : UserResponse.t) : bool :=
  Py.utf8_ok (UserResponse.name u) && Py.utf8_ok (UserResponse.email u).

(** The document can be written out as UTF-8 JSON: every string in it that
    came from a request can be encoded.  The fixed texts of the service are
    ASCII. *)
Definition encodable (c : content) : bool :=
  match c with
  | debug_obj _ users => forallb clean users
  | user_obj u => clean_response u
  | user_list us => forallb clean_response us
  | status_obj _ | error_obj _ | detail_obj _ | detail_errors _ => true
  end.

(** ** Endpoint computations: state and exceptions *)

Inductive exn : Type :=
| HTTPException (status_code : Z) (detail : string)
| Exception (msg : string).

Inductive result (A : Type) : Type :=
| Return (a : A)
| Raise (e : exn).
Arguments Return {A} a.
Arguments Raise {A} e.

(** An endpoint runs on the current store and leaves a store behind,
    whether it returns or raises. *)
Definition Handler (A : Type) : Type := users_db_t -> result A * users_db_t.

Definition ret {A : Type} (a : A) : Handler A := fun db => (Return a, db).

Definition raise {A : Type} (e : exn) : Handler A := fun db => (Raise e, db).

Definition bind {A B : Type} (m : Handler A) (k : A -> Handler B) : Handler B :=
  fun db =>
    match m db with
    | (Return a, db') => k a db'
    | (Raise e, db') => (Raise e, db')
    end.

Notation "x <- m ;; k" := (bind m (fun x => k))
  (at level 61, m at next level, right associativity).

(** Reading the global [users_db]. *)
Definition get_db : Handler users_db_t := fun db => (Return db, db).

(** [users_db.append(u)] *)
Definition append (u : UserDict.t) : Handler unit := fun db => (Return tt, db ++ [u]).

(** [try: m  except ...: h] *)
Definition try_except {A : Type} (m : Handler A) (h : exn -> Handler A) : Handler A :=
  fun db =>
    match m db with
    | (Return a, db') => (Return a, db')
    | (Raise e, db') => h e db'
    end.

(** ** The endpoints *)

(** What an endpoint hands to the framework: a ready response, which is
    sent as it is, or a value that the framework encodes as the body of a
    response with status 200. *)
Inductive returned : Type :=
| ready (r : response)
| value (c : content).

(** [GET /health] *)
Definition health_check : Handler returned :=
  ret (value (status_obj "OK")).

(** [GET /debug/users] *)
Definition debug_users : Handler returned :=
  db <- get_db ;;
  ret (value (debug_obj (Z.of_nat (length db)) db)).

(** The loop [for existing_user in users_db: if existing_user["email"] ==
    email: return JSONResponse(...)] of [create_user]: the response of the
    early return, if the loop takes it. *)
Fixpoint email_scan (db : users_db_t) (email : Py.str) : option response :=
  match db with
  | [] => None
  | existing_user :: rest =>
      if Py.eqb (UserDict.email existing_user) email
      then Some (JSONResponse 400 (error_obj "User already exists"))
      else email_scan rest email
  end.

(** [POST /users] *)
Definition create_user (user : UserCreate.t) : Handler returned :=
  try_except
    (db <- get_db ;;
     match email_scan db (UserCreate.email user) with
     | Some r => ret (ready r)
     | None =>
         let new_user :=
           UserDict.mk (UserCreate.id user) (UserCreate.name user)
                       (UserCreate.email user) in
         _ <- append new_user ;;
         ret (value (user_obj (to_response new_user)))
     end)
    (fun e =>
       match e with
       | HTTPException _ _ => raise e
       | Exception _ => raise (HTTPException 500 "Failed to create user")
       end).

(** [GET /users] *)
Definition read_users (skip limit : Z) : Handler returned :=
  try_except
    (db <- get_db ;;
     ret (value (user_list (map to_response (Py.slice db skip (skip + limit))))))
    (fun _ => raise (HTTPException 500 "Failed to fetch users")).

(** The loop [for user in users_db: if user["id"] == user_id: return
    a UserResponse of user] of [read_user]. *)
Fixpoint id_scan (db : users_db_t) (user_id : Z) : option UserResponse.t :=
  match db with
  | [] => None
  | user :: rest =>
      if UserDict.id user =? user_id
      then Some (to_response user)
      else id_scan rest user_id
  end.

(** [GET /users/{user_id}] *)
Definition read_user (user_id : Z) : Handler returned :=
  try_except
    (db <- get_db ;;
     match id_scan db user_id with
     | Some u => ret (value (user_obj u))
     | None => raise (HTTPException 404 "User not found")
     end)
    (fun e =>
       match e with
       | HTTPException _ _ => raise e
       | Exception _ => raise (HTTPException 500 "Failed to fetch user")
       end).

(** [@app.exception_handler(Exception)] *)
Definition global_exception_handler (exc : exn) : response :=
  JSONResponse 500 (detail_obj "Internal server error").

(** ** The application *)

Inductive request : Type :=
| GET_health
| GET_debug_users
| POST_users (b : body)
| GET_users (skip limit : option Z)
| GET_users_id (user_id : Z).

(** The exception the encoding of a value raises on a surrogate. *)
Definition UnicodeEncodeError : exn := Exception "surrogates not allowed".

(** Rendering of what an endpoint did.  A returned value is encoded after
    the endpoint has returned, outside its [try]: when the encoding fails,
    the exception goes to the global exception handler. *)
Definition render (r : result returned) : response :=
  match r with
  | Return (ready resp) => resp
  | Return (value c) =>
      if encodable c then JSONResponse 200 c
      else global_exception_handler UnicodeEncodeError
  | Raise (HTTPException code detail) => JSONResponse code (detail_obj detail)
  | Raise exc => global_exception_handler exc
  end.

Definition run (h : Handler returned) (db : users_db_t) : response * users_db_t :=
  let (r, db') := h db in (render r, db').

Definition default (d : Z) (q : option Z) : Z :=
  match q with Some v => v | None => d end.

(** One request served on store [db]: the response and the store after. *)
Definition app (req : request) (db : users_db_t) : response * users_db_t :=
  match req with
  | GET_health => run health_check db
  | GET_debug_users => run debug_users db
  | POST_users b =>
      match validate b with
      | inl user => run (create_user user) db
      | inr errors => (JSONResponse 422 (detail_errors errors), db)
      end
  | GET_users skip limit => run (read_users (default 0 skip) (default 100 limit)) db
  | GET_users_id user_id => run (read_user user_id) db
  end.

(** The store after serving a sequence of requests in order. *)
Definition serve (reqs : list request) (db : users_db_t) : users_db_t :=
  fold_left (fun d req => snd (app req d)) reqs db.

(** ** Vocabulary of the properties *)

(** No two entries of the store have the same email. *)
Definition emails_unique (db : users_db_t) : Prop :=
  NoDup (map UserDict.email db).

(** Some entry of the store has email [e]. *)
Definition email_taken (db : users_db_t) (e : Py.str) : Prop :=
  exists r, In r db /\ UserDict.email r = e.

(** The name has a character left after trimming, and the email has an
    at sign. *)
Definition well_formed (u : UserDict.t) : Prop :=
  Py.strip (UserDict.name u) <> [] /\ In 64%N (UserDict.email u).

(** The entry was submitted, field by field, by a creation request of the
    sequence. *)
Definition submitted (reqs : list request) (u : UserDict.t) : Prop :=
  In (POST_users (mk_body (Some (UserDict.id u)) (Some (UserDict.name u))
                          (Some (UserDict.email u)))) reqs.

(** [u] is the first entry of [db], in insertion order, whose id is
    [user_id]. *)
Definition first_with_id (db : users_db_t) (user_id : Z) (u : UserDict.t) : Prop :=
  exists before after,
    db = before ++ u :: after /\
    UserDict.id u = user_id /\
    Forall (fun v => UserDict.id v <> user_id) before.

(** The duplicate-email rejection read for every creation request,
    whether or not its body passes validation. *)
Definition duplicate_rejected_whatever_the_body : Prop :=
  forall (db : users_db_t) (b : body) (e : Py.str),
    body_email b = Some e ->
    email_taken db e ->
    app (POST_users b) db =
      (JSONResponse 400 (error_obj "User already exists"), db).

(** The requests of a sequence with the response each one gets, served in
    order from store [db]. *)
Fixpoint trace (reqs : list request) (db : users_db_t) : list (request * response) :=
  match reqs with
  | [] => []
  | req :: rest => (req, fst (app req db)) :: trace rest (snd (app req db))
  end.

Definition is_POST (req : request) : bool :=
  match req with POST_users _ => true | _ => false end.

(** A creation request that was answered with status 200 or with status
    500. *)
Definition is_creation (served : request * response) : bool :=
  is_POST (fst served) &&
  ((status_code (snd served) =? 200) || (status_code (snd served) =? 500)).

(** The entry [create_user] builds from a validated request. *)
Definition entry_of (user : UserCreate.t) : UserDict.t :=
  UserDict.mk (UserCreate.id user) (UserCreate.name user) (UserCreate.email user).

(** Some entry of the store has id [i]. *)
Definition id_taken (db : users_db_t) (i : Z) : Prop :=
  exists r, In r db /\ UserDict.id r = i.

(** The name has a character that is not whitespace. *)
Definition not_blank (n : Py.str) : Prop :=
  exists c, In c n /\ Py.isspace c = false.

(** The field an error is about. *)
Definition error_loc (err : error_detail) : field :=
  match err with missing loc | value_error loc _ => loc end.

Definition field_eqb (f g : field) : bool :=
  match f, g with
  | f_id, f_id | f_name, f_name | f_email, f_email => true
  | _, _ => false
  end.

(** The records [read_users] returns for [GET /users?skip=..&limit=..]:
    the page, before it is encoded. *)
Definition listed (skip limit : Z) (db : users_db_t) : list UserResponse.t :=
  match fst (read_users skip limit db) with
  | Return (value (user_list us)) => us
  | _ => []
  end.

(** The answer of the global exception handler. *)
Definition internal_server_error : response :=
  JSONResponse 500 (detail_obj "Internal server error").

(** * Properties *)

(** ** Strings *)

Lemma eqb_eq (a b : Py.str) : Py.eqb a b = true <-> a = b.
Proof.
  revert b; induction a as [|x a IH]; intros [|y b]; simpl; split;
    try congruence; try reflexivity.
  - intros H. apply andb_true_iff in H as [Hx Hab].
    apply N.eqb_eq in Hx. apply IH in Hab. congruence.
  - intros H. injection H as -> ->.
    rewrite N.eqb_refl. simpl. now apply IH.
Qed.

Lemma eqb_neq (a b : Py.str) : Py.eqb a b = false <-> a <> b.
Proof.
  rewrite <- eqb_eq. destruct (Py.eqb a b); split; congruence.
Qed.

Lemma lstrip_nil_iff (v : Py.str) :
  Py.lstrip v = [] <-> forallb Py.isspace v = true.
Proof.
  induction v as [|c v IH]; simpl.
  - tauto.
  - destruct (Py.isspace c); simpl; [exact IH | split; discriminate].
Qed.

Lemma lstrip_all_space (v : Py.str) :
  forallb Py.isspace v = true -> Py.lstrip v = [].
Proof. apply lstrip_nil_iff. Qed.

(** What is left of the left end is a suffix, so a string of blanks stays
    one. *)
Lemma lstrip_keeps_space (v : Py.str) :
  forallb Py.isspace v = true -> forallb Py.isspace (Py.lstrip v) = true.
Proof. intros H. now rewrite (lstrip_all_space v H). Qed.

Lemma forallb_rev {A : Type} (p : A -> bool) (l : list A) :
  forallb p (rev l) = forallb p l.
Proof.
  induction l as [|x l IH]; simpl; [reflexivity|].
  rewrite forallb_app, IH. simpl. rewrite andb_true_r. apply andb_comm.
Qed.

Lemma lstrip_head (v : Py.str) :
  match Py.lstrip v with
  | [] => True
  | c :: _ => Py.isspace c = false
  end.
Proof.
  induction v as [|c v IH]; simpl; [exact I|].
  destruct (Py.isspace c) eqn:E; [exact IH | exact E].
Qed.

(** [v.strip()] is empty exactly when [v] has only whitespace in it. *)
Lemma strip_nil_iff (v : Py.str) :
  Py.strip v = [] <-> forallb Py.isspace v = true.
Proof.
  unfold Py.strip, Py.rstrip. split.
  - intros H.
    assert (Hr : Py.lstrip (rev (Py.lstrip v)) = []).
    { destruct (Py.lstrip (rev (Py.lstrip v))) as [|d l]; [reflexivity|].
      simpl in H. apply app_eq_nil in H as [_ H]. discriminate. }
    apply lstrip_nil_iff in Hr. rewrite forallb_rev in Hr.
    pose proof (lstrip_head v) as Hh.
    destruct (Py.lstrip v) as [|c w] eqn:E.
    + now apply lstrip_nil_iff.
    + simpl in Hr. rewrite Hh in Hr. discriminate.
  - intros H. now rewrite (lstrip_all_space v H).
Qed.

(** The [name] validator accepts exactly the strings that contain a
    character that is not whitespace, and hands them back untouched. *)
Lemma name_required_ok (v w : Py.str) :
  name_required v = inl w <-> (w = v /\ forallb Py.isspace v = false).
Proof.
  unfold name_required.
  destruct v as [|c v]; simpl; [split; [discriminate | intros [_ H]; discriminate]|].
  destruct (Py.strip (c :: v)) as [|d s] eqn:E; simpl.
  - apply strip_nil_iff in E. simpl in E. rewrite E.
    split; [discriminate | intros [_ H]; discriminate].
  - assert (H : forallb Py.isspace (c :: v) = false).
    { destruct (forallb Py.isspace (c :: v)) eqn:F; [|reflexivity].
      apply strip_nil_iff in F. congruence. }
    simpl in H. rewrite H. split; [intros [= <-] | intros [-> _]]; auto.
Qed.

Lemma name_required_fails (v : Py.str) :
  forallb Py.isspace v = true -> name_required v = inr "Name is required"%string.
Proof.
  intros H. unfold name_required.
  apply strip_nil_iff in H. rewrite H. simpl.
  now rewrite orb_true_r.
Qed.

Lemma email_must_contain_at_ok (v w : Py.str) :
  email_must_contain_at v = inl w <-> (w = v /\ Py.contains 64%N v = true).
Proof.
  unfold email_must_contain_at.
  destruct (Py.contains 64%N v); simpl; split;
    try discriminate; try (intros [= <-]; auto); intros [-> H]; congruence.
Qed.

(** A body that passes validation has its three fields present, and the
    model holds them unchanged. *)
Lemma validate_ok (b : body) (user : UserCreate.t) :
  validate b = inl user ->
  body_id b = Some (UserCreate.id user) /\
  body_name b = Some (UserCreate.name user) /\
  body_email b = Some (UserCreate.email user) /\
  forallb Py.isspace (UserCreate.name user) = false /\
  Py.contains 64%N (UserCreate.email user) = true.
Proof.
  unfold validate, validate_field, no_validator.
  destruct b as [[i|] [n|] [e|]]; simpl; try discriminate;
    try (destruct (name_required n); discriminate);
    try (destruct (email_must_contain_at e); discriminate).
  destruct (name_required n) as [n'|] eqn:En; [|destruct (email_must_contain_at e); discriminate].
  destruct (email_must_contain_at e) as [e'|] eqn:Ee; [|discriminate].
  apply name_required_ok in En as [-> Hn].
  apply email_must_contain_at_ok in Ee as [-> He].
  intros [= <-]. simpl. auto.
Qed.

(** A body with an error in its name or in its email fails validation,
    with at least one error reported. *)
Lemma validate_fails (b : body) :
  errors_of (validate_field f_name (body_name b) name_required) <> [] \/
  errors_of (validate_field f_email (body_email b) email_must_contain_at) <> [] ->
  exists errors, errors <> [] /\ validate b = inr errors.
Proof.
  unfold validate.
  remember (validate_field f_id (body_id b) no_validator) as ri.
  remember (validate_field f_name (body_name b) name_required) as rn.
  remember (validate_field f_email (body_email b) email_must_contain_at) as re.
  clear. intros H.
  exists (errors_of ri ++ errors_of rn ++ errors_of re). split.
  - intros E. apply app_eq_nil in E as [_ E].
    apply app_eq_nil in E as [En Ee]. tauto.
  - destruct ri, rn, re; try reflexivity.
    simpl in H. tauto.
Qed.

(** ** The email scan of [create_user] *)

Lemma email_scan_None (db : users_db_t) (e : Py.str) :
  email_scan db e = None <-> Forall (fun r => UserDict.email r <> e) db.
Proof.
  induction db as [|r db IH]; simpl.
  - split; auto.
  - destruct (Py.eqb (UserDict.email r) e) eqn:E.
    + apply eqb_eq in E. split; [discriminate|].
      intros H. inversion H; subst. congruence.
    + apply eqb_neq in E. rewrite IH. split.
      * intros H. now constructor.
      * intros H. now inversion H.
Qed.

Lemma email_scan_Some (db : users_db_t) (e : Py.str) :
  email_taken db e ->
  email_scan db e = Some (JSONResponse 400 (error_obj "User already exists")).
Proof.
  intros (r & Hin & He).
  induction db as [|x db IH]; simpl; [contradiction|].
  destruct (Py.eqb (UserDict.email x) e) eqn:E; [reflexivity|].
  apply eqb_neq in E. destruct Hin as [->|Hin]; [contradiction|]. auto.
Qed.

Lemma email_taken_dec (db : users_db_t) (e : Py.str) :
  email_taken db e \/ Forall (fun r => UserDict.email r <> e) db.
Proof.
  destruct (email_scan db e) eqn:E.
  - left. induction db as [|x db IH]; simpl in E; [discriminate|].
    destruct (Py.eqb (UserDict.email x) e) eqn:Ex.
    + apply eqb_eq in Ex. exists x. simpl. auto.
    + destruct (IH E) as (y & Hy & He). exists y. simpl. auto.
  - right. now apply email_scan_None.
Qed.

(** The endpoint on a fresh email: the entry goes to the end of the list
    and comes back as the response model. *)
Lemma create_user_fresh (user : UserCreate.t) (db : users_db_t) :
  Forall (fun r => UserDict.email r <> UserCreate.email user) db ->
  create_user user db =
    (Return (value
       (user_obj (UserResponse.mk (UserCreate.id user) (UserCreate.name user)
                                  (UserCreate.email user)))),
     db ++ [UserDict.mk (UserCreate.id user) (UserCreate.name user)
                        (UserCreate.email user)]).
Proof.
  intros H. apply email_scan_None in H.
  unfold create_user, try_except, bind, get_db. rewrite H. reflexivity.
Qed.

(** What the framework sends for a returned value. *)
Lemma render_value (c : content) :
  render (Return (value c)) =
    if encodable c then JSONResponse 200 c
    else JSONResponse 500 (detail_obj "Internal server error").
Proof. reflexivity. Qed.

Lemma run_eq (h : Handler returned) (db db' : users_db_t) (r : result returned) :
  h db = (r, db') -> run h db = (render r, db').
Proof. unfold run. now intros ->. Qed.

Lemma create_user_fresh_run (user : UserCreate.t) (db : users_db_t) :
  Forall (fun r => UserDict.email r <> UserCreate.email user) db ->
  run (create_user user) db =
    (render (Return (value
       (user_obj (UserResponse.mk (UserCreate.id user) (UserCreate.name user)
                                  (UserCreate.email user))))),
     db ++ [UserDict.mk (UserCreate.id user) (UserCreate.name user)
                        (UserCreate.email user)]).
Proof. intros H. apply run_eq. now apply create_user_fresh. Qed.

(** The endpoint on an email that is taken: the early return of the loop. *)
Lemma create_user_taken (user : UserCreate.t) (db : users_db_t) :
  email_taken db (UserCreate.email user) ->
  run (create_user user) db =
    (JSONResponse 400 (error_obj "User already exists"), db).
Proof.
  intros H. apply email_scan_Some in H.
  unfold run, create_user, try_except, bind, get_db. rewrite H. reflexivity.
Qed.

(** A body that passes validation reaches the endpoint. *)
Lemma app_POST_valid (b : body) (user : UserCreate.t) (db : users_db_t) :
  validate b = inl user -> app (POST_users b) db = run (create_user user) db.
Proof. intros V. simpl. now rewrite V. Qed.

(** Whatever the request, the store afterwards is the store before, or the
    store before with one validated entry, of a fresh email, at its end. *)
Lemma app_store (req : request) (db : users_db_t) :
  snd (app req db) = db \/
  exists user b,
    req = POST_users b /\ validate b = inl user /\
    Forall (fun r => UserDict.email r <> UserCreate.email user) db /\
    snd (app req db) =
      db ++ [UserDict.mk (UserCreate.id user) (UserCreate.name user)
                         (UserCreate.email user)].
Proof.
  destruct req as [| |b|skip limit|user_id]; simpl; auto.
  - destruct (validate b) as [user|errors] eqn:V; simpl; auto.
    destruct (email_taken_dec db (UserCreate.email user)) as [T|F].
    + left. now rewrite (create_user_taken user db T).
    + right. exists user, b. rewrite (create_user_fresh_run user db F). auto.
  - left. unfold run, read_user, try_except, bind, get_db.
    destruct (id_scan db user_id); reflexivity.
Qed.

(** ** Creation *)

(** C1. On a creation request that passes validation and whose email is
    the email of no entry of the store, [create_user] puts the entry at the
    end of the store, which grows by exactly one, and returns the record
    of the payload (id, name, email).  The record is the body of the answer,
    with status 200, when its name and email can be encoded. *)
Theorem create_user_appends (db : users_db_t) (b : body) (user : UserCreate.t) :
  validate b = inl user ->
  (forall r, In r db -> UserDict.email r <> UserCreate.email user) ->
  exists i n e,
    body_id b = Some i /\ body_name b = Some n /\ body_email b = Some e /\
    create_user user db =
      (Return (value (user_obj (UserResponse.mk i n e))),
       db ++ [UserDict.mk i n e]) /\
    snd (app (POST_users b) db) = db ++ [UserDict.mk i n e] /\
    length (snd (app (POST_users b) db)) = S (length db) /\
    (Py.utf8_ok n = true -> Py.utf8_ok e = true ->
     fst (app (POST_users b) db) =
       JSONResponse 200 (user_obj (UserResponse.mk i n e))).
Proof.
  intros V Hfresh.
  destruct (validate_ok b user V) as (Hi & Hn & He & _).
  exists (UserCreate.id user), (UserCreate.name user), (UserCreate.email user).
  assert (F : Forall (fun r => UserDict.email r <> UserCreate.email user) db)
    by now apply Forall_forall.
  rewrite (app_POST_valid b user db V), (create_user_fresh_run user db F).
  repeat split; try assumption.
  - now apply create_user_fresh.
  - simpl. rewrite length_app. simpl. lia.
  - intros Un Ue. cbn [fst]. rewrite render_value. simpl.
    unfold clean_response. simpl. now rewrite Un, Ue.
Qed.

Lemma create_user_appends_witness :
  exists i n e,
    Some 1 = Some i /\ Some (Py.lit "Ann") = Some n /\
    Some (Py.lit "a@x.com") = Some e /\
    create_user (UserCreate.mk 1 (Py.lit "Ann") (Py.lit "a@x.com"))
                [UserDict.mk 7 (Py.lit "Bob") (Py.lit "A@x.com")] =
      (Return (value (user_obj (UserResponse.mk i n e))),
       [UserDict.mk 7 (Py.lit "Bob") (Py.lit "A@x.com")] ++ [UserDict.mk i n e]) /\
    snd (app (POST_users (mk_body (Some 1) (Some (Py.lit "Ann"))
                                  (Some (Py.lit "a@x.com"))))
             [UserDict.mk 7 (Py.lit "Bob") (Py.lit "A@x.com")]) =
      [UserDict.mk 7 (Py.lit "Bob") (Py.lit "A@x.com")] ++ [UserDict.mk i n e] /\
    length (snd (app (POST_users (mk_body (Some 1) (Some (Py.lit "Ann"))
                                           (Some (Py.lit "a@x.com"))))
                     [UserDict.mk 7 (Py.lit "Bob") (Py.lit "A@x.com")])) = 2%nat /\
    (Py.utf8_ok n = true -> Py.utf8_ok e = true ->
     fst (app (POST_users (mk_body (Some 1) (Some (Py.lit "Ann"))
                                   (Some (Py.lit "a@x.com"))))
              [UserDict.mk 7 (Py.lit "Bob") (Py.lit "A@x.com")]) =
       JSONResponse 200 (user_obj (UserResponse.mk i n e))).
Proof.
  apply (create_user_appends
           [UserDict.mk 7 (Py.lit "Bob") (Py.lit "A@x.com")]
           (mk_body (Some 1) (Some (Py.lit "Ann")) (Some (Py.lit "a@x.com")))
           (UserCreate.mk 1 (Py.lit "Ann") (Py.lit "a@x.com"))).
  - reflexivity.
  - intros r [<-|[]]. vm_compute. discriminate.
Defined.

(** C2, as the code has it. A creation request that passes validation and
    whose email is the email of some entry of the store is answered with
    status 400 and the body [{"error": "User already exists"}]; the store
    is left as it was. *)
Theorem create_user_rejects_duplicate (db : users_db_t) (b : body) (user : UserCreate.t) :
  validate b = inl user ->
  email_taken db (UserCreate.email user) ->
  body_email b = Some (UserCreate.email user) /\
  app (POST_users b) db =
    (JSONResponse 400 (error_obj "User already exists"), db) /\
  length (snd (app (POST_users b) db)) = length db.
Proof.
  intros V T.
  destruct (validate_ok b user V) as (_ & _ & He & _).
  assert (Happ : app (POST_users b) db =
            (JSONResponse 400 (error_obj "User already exists"), db)).
  { simpl. rewrite V. now apply create_user_taken. }
  rewrite Happ. auto.
Qed.

Lemma create_user_rejects_duplicate_witness :
  Some (Py.lit "a@x.com") = Some (Py.lit "a@x.com") /\
  app (POST_users (mk_body (Some 2) (Some (Py.lit "Ann")) (Some (Py.lit "a@x.com"))))
      [UserDict.mk 1 (Py.lit "Ann") (Py.lit "a@x.com")] =
    (JSONResponse 400 (error_obj "User already exists"),
     [UserDict.mk 1 (Py.lit "Ann") (Py.lit "a@x.com")]) /\
  length (snd (app (POST_users (mk_body (Some 2) (Some (Py.lit "Ann"))
                                         (Some (Py.lit "a@x.com"))))
                   [UserDict.mk 1 (Py.lit "Ann") (Py.lit "a@x.com")])) = 1%nat.
Proof.
  apply (create_user_rejects_duplicate
           [UserDict.mk 1 (Py.lit "Ann") (Py.lit "a@x.com")]
           (mk_body (Some 2) (Some (Py.lit "Ann")) (Some (Py.lit "a@x.com")))
           (UserCreate.mk 2 (Py.lit "Ann") (Py.lit "a@x.com"))).
  - reflexivity.
  - exists (UserDict.mk 1 (Py.lit "Ann") (Py.lit "a@x.com")). simpl. auto.
Defined.

(** C2, read for every creation request: it fails on a body with a
    blank name and an email that is taken, which validation turns down with
    status 422 before the scan for the email runs. *)
Lemma duplicate_with_blank_name_is_422 :
  app (POST_users (mk_body (Some 2) (Some (Py.lit " ")) (Some (Py.lit "a@x.com"))))
      [UserDict.mk 1 (Py.lit "Ann") (Py.lit "a@x.com")] =
    (JSONResponse 422 (detail_errors [value_error f_name "Name is required"]),
     [UserDict.mk 1 (Py.lit "Ann") (Py.lit "a@x.com")]) /\
  ~ duplicate_rejected_whatever_the_body.
Proof.
  split; [reflexivity|].
  intros H.
  specialize (H [UserDict.mk 1 (Py.lit "Ann") (Py.lit "a@x.com")]
                (mk_body (Some 2) (Some (Py.lit " ")) (Some (Py.lit "a@x.com")))
                (Py.lit "a@x.com") eq_refl).
  assert (T : email_taken [UserDict.mk 1 (Py.lit "Ann") (Py.lit "a@x.com")]
                          (Py.lit "a@x.com")).
  { exists (UserDict.mk 1 (Py.lit "Ann") (Py.lit "a@x.com")). simpl. auto. }
  specialize (H T). vm_compute in H. discriminate.
Qed.

(** C4. A creation request whose name is absent, empty or made of
    whitespace only, or whose email has no at sign, is answered with status
    422 and the errors of validation, which depend on the body alone; the
    store, whatever it is, is left as it was. *)
Theorem create_user_invalid_body (b : body) :
  body_name b = None \/
  body_name b = Some [] \/
  (exists n, body_name b = Some n /\ forallb Py.isspace n = true) \/
  (exists e, body_email b = Some e /\ ~ In 64%N e) ->
  exists errors,
    errors <> [] /\
    validate b = inr errors /\
    forall db : users_db_t,
      app (POST_users b) db = (JSONResponse 422 (detail_errors errors), db).
Proof.
  intros H.
  assert (V : exists errors, errors <> [] /\ validate b = inr errors).
  { apply validate_fails.
    destruct H as [H|[H|[(n & H & Hn)|(e & H & He)]]]; rewrite H; simpl.
    - left. discriminate.
    - left. discriminate.
    - left. rewrite (name_required_fails n Hn). discriminate.
    - right. unfold email_must_contain_at.
      destruct (Py.contains 64%N e) eqn:C; [|discriminate].
      apply existsb_exists in C as (x & Hx & Ex).
      apply N.eqb_eq in Ex. subst x. contradiction. }
  destruct V as (errors & Hne & V). exists errors.
  repeat split; try assumption.
  intros db. simpl. now rewrite V.
Qed.

Lemma create_user_invalid_body_witness :
  exists errors,
    errors <> [] /\
    validate (mk_body (Some 3) (Some (Py.lit "Ann")) (Some (Py.lit "ann.x.com"))) =
      inr errors /\
    forall db : users_db_t,
      app (POST_users (mk_body (Some 3) (Some (Py.lit "Ann")) (Some (Py.lit "ann.x.com"))))
          db = (JSONResponse 422 (detail_errors errors), db).
Proof.
  apply (create_user_invalid_body
           (mk_body (Some 3) (Some (Py.lit "Ann")) (Some (Py.lit "ann.x.com")))).
  right. right. right. exists (Py.lit "ann.x.com"). split; [reflexivity|].
  vm_compute. intuition discriminate.
Defined.

(** ** Invariants of the reachable stores *)

Section Invariants.

Variable Inv : users_db_t -> Prop.
Hypothesis Inv_step : forall req db, Inv db -> Inv (snd (app req db)).

(** A property that every request preserves holds after any sequence of
    requests. *)
Lemma serve_preserves (reqs : list request) (db : users_db_t) :
  Inv db -> Inv (serve reqs db).
Proof.
  unfold serve. revert db.
  induction reqs as [|req reqs IH]; intros db H; simpl; auto.
Qed.

End Invariants.

Lemma serve_snoc (reqs : list request) (req : request) (db : users_db_t) :
  serve (reqs ++ [req]) db = snd (app req (serve reqs db)).
Proof. unfold serve. now rewrite fold_left_app. Qed.

Lemma emails_unique_step (req : request) (db : users_db_t) :
  emails_unique db -> emails_unique (snd (app req db)).
Proof.
  intros H.
  destruct (app_store req db) as [->|(user & b & _ & _ & F & ->)]; [assumption|].
  unfold emails_unique in *. rewrite map_app. simpl.
  apply NoDup_app; [assumption | repeat constructor; intros [] |].
  intros e He [<-|[]].
  apply in_map_iff in He as (r & Hr & Hin).
  rewrite Forall_forall in F. now apply (F r Hin).
Qed.

(** C3. After any sequence of requests served one after the other from the
    empty store, no two entries of the store have the same email. *)
Theorem emails_unique_reachable (reqs : list request) :
  emails_unique (serve reqs users_db).
Proof.
  apply serve_preserves.
  - intros req db. apply emails_unique_step.
  - constructor.
Qed.

Lemma validated_well_formed (b : body) (user : UserCreate.t) :
  validate b = inl user ->
  b = mk_body (Some (UserCreate.id user)) (Some (UserCreate.name user))
              (Some (UserCreate.email user)) /\
  well_formed (UserDict.mk (UserCreate.id user) (UserCreate.name user)
                           (UserCreate.email user)).
Proof.
  intros V. destruct (validate_ok b user V) as (Hi & Hn & He & Sn & Se).
  split.
  - destruct b; simpl in *; congruence.
  - split; simpl.
    + intros E. apply strip_nil_iff in E. congruence.
    + apply existsb_exists in Se as (x & Hx & Ex).
      apply N.eqb_eq in Ex. now subst x.
Qed.

Lemma submitted_snoc (reqs : list request) (req : request) (u : UserDict.t) :
  submitted reqs u -> submitted (reqs ++ [req]) u.
Proof. unfold submitted. intros H. apply in_or_app. now left. Qed.

(** C10. In every store reached from the empty one, every entry is a
    record of an integer id, a name and an email; its name has a character
    left after trimming and its email has an at sign; and its three fields
    are, unchanged, those of the body of a creation request that was served.
    A name sent with blanks around it is stored with them. *)
Theorem stored_records_well_formed (reqs : list request) :
  Forall (fun u =>
            (exists (i : Z) (n e : Py.str), u = UserDict.mk i n e) /\
            well_formed u /\ submitted reqs u)
         (serve reqs users_db) /\
  serve [POST_users (mk_body (Some 1) (Some (Py.lit "  Ann ")) (Some (Py.lit "a@x.com")))]
        users_db = [UserDict.mk 1 (Py.lit "  Ann ") (Py.lit "a@x.com")] /\
  Py.strip (Py.lit "  Ann ") = Py.lit "Ann".
Proof.
  split; [|split; reflexivity].
  induction reqs as [|req reqs IH] using rev_ind; [constructor|].
  rewrite serve_snoc.
  assert (IH' : Forall (fun u =>
            (exists (i : Z) (n e : Py.str), u = UserDict.mk i n e) /\
            well_formed u /\ submitted (reqs ++ [req]) u) (serve reqs users_db)).
  { eapply Forall_impl; [|exact IH].
    intros u (Hu & Hw & Hs). auto using submitted_snoc. }
  destruct (app_store req (serve reqs users_db))
    as [->|(user & b & -> & V & _ & ->)]; [assumption|].
  apply Forall_app. split; [assumption|].
  destruct (validated_well_formed b user V) as [Hb Hw].
  constructor; [|constructor].
  repeat split; try apply Hw.
  - eauto.
  - unfold submitted. simpl. apply in_or_app. right. left. now rewrite Hb.
Qed.

(** ** Lookup by id *)

Lemma id_scan_None (db : users_db_t) (user_id : Z) :
  id_scan db user_id = None <-> Forall (fun v => UserDict.id v <> user_id) db.
Proof.
  induction db as [|u db IH]; simpl.
  - split; auto.
  - destruct (Z.eqb_spec (UserDict.id u) user_id) as [E|E].
    + split; [discriminate|]. intros H. inversion H; subst. congruence.
    + rewrite IH. split; intros H; [now constructor | now inversion H].
Qed.

Lemma id_scan_Some (db : users_db_t) (user_id : Z) (r : UserResponse.t) :
  id_scan db user_id = Some r ->
  exists u, first_with_id db user_id u /\ r = to_response u.
Proof.
  induction db as [|x db IH]; simpl; [discriminate|].
  destruct (Z.eqb_spec (UserDict.id x) user_id) as [E|E].
  - intros [= <-]. exists x. split; [|reflexivity].
    exists [], db. simpl. auto.
  - intros H. destruct (IH H) as (u & (before & after & -> & Hid & Hb) & ->).
    exists u. split; [|reflexivity].
    exists (x :: before), after. simpl. auto.
Qed.

(** The first entry with a given id is determined by the store. *)
Lemma first_with_id_unique (db : users_db_t) (user_id : Z) (u v : UserDict.t) :
  first_with_id db user_id u -> first_with_id db user_id v -> u = v.
Proof.
  intros (b1 & a1 & -> & Hu & F1) (b2 & a2 & E & Hv & F2).
  revert b2 E F2. induction b1 as [|x b1 IH]; intros [|y b2] E F2; simpl in E.
  - congruence.
  - injection E as -> _. inversion F2; subst. congruence.
  - injection E as -> _. inversion F1; subst. congruence.
  - injection E as -> E. inversion F1; inversion F2; subst. eauto.
Qed.

Lemma read_user_ret (db : users_db_t) (user_id : Z) :
  read_user user_id db =
    (match id_scan db user_id with
     | Some r => Return (value (user_obj r))
     | None => Raise (HTTPException 404 "User not found")
     end, db).
Proof.
  unfold read_user, try_except, bind, get_db.
  destruct (id_scan db user_id); reflexivity.
Qed.

Lemma read_user_run (db : users_db_t) (user_id : Z) :
  run (read_user user_id) db =
    (render (match id_scan db user_id with
             | Some r => Return (value (user_obj r))
             | None => Raise (HTTPException 404 "User not found")
             end), db).
Proof. apply run_eq, read_user_ret. Qed.

Lemma id_scan_first (db : users_db_t) (user_id : Z) (u : UserDict.t) :
  first_with_id db user_id u -> id_scan db user_id = Some (to_response u).
Proof.
  intros Hu. destruct (id_scan db user_id) as [r|] eqn:E.
  - apply id_scan_Some in E as (v & Hv & ->).
    now rewrite (first_with_id_unique db user_id u v Hu Hv).
  - apply id_scan_None in E.
    destruct Hu as (before & after & -> & Hid & _).
    apply Forall_app in E as [_ E]. inversion E; subst. congruence.
Qed.

Lemma encodable_to_response (u : UserDict.t) :
  encodable (user_obj (to_response u)) = clean u.
Proof. reflexivity. Qed.

(** C5. On every store and for every integer id, [read_user] returns the
    first entry, in insertion order, whose id is the given one, when an
    entry has that id, and the entry is the body of the answer, with status
    200, when its name and email can be encoded; when no entry has the id,
    it raises the 404 with the detail "User not found", which is the
    answer.  Of two entries with the same id the later one is never the
    one found: the entry found stands at or before the earlier one. *)
Theorem read_user_first_match (db : users_db_t) (user_id : Z) :
  ((exists r, In r db /\ UserDict.id r = user_id) ->
   exists u, first_with_id db user_id u) /\
  (forall u, first_with_id db user_id u ->
     fst (read_user user_id db) = Return (value (user_obj (to_response u))) /\
     (clean u = true ->
      fst (app (GET_users_id user_id) db) =
        JSONResponse 200 (user_obj (to_response u)))) /\
  ((forall r, In r db -> UserDict.id r <> user_id) ->
   fst (read_user user_id db) = Raise (HTTPException 404 "User not found") /\
   fst (app (GET_users_id user_id) db) =
     JSONResponse 404 (detail_obj "User not found")) /\
  (forall l1 u1 l2 u2 l3,
     db = l1 ++ u1 :: l2 ++ u2 :: l3 ->
     UserDict.id u1 = user_id -> UserDict.id u2 = user_id ->
     exists u before after,
       l1 ++ [u1] = before ++ u :: after /\
       first_with_id db user_id u /\
       fst (read_user user_id db) = Return (value (user_obj (to_response u)))).
Proof.
  assert (Hfound : forall u, first_with_id db user_id u ->
            fst (read_user user_id db) = Return (value (user_obj (to_response u)))).
  { intros u Hu. now rewrite read_user_ret, (id_scan_first db user_id u Hu). }
  assert (Hex : (exists r, In r db /\ UserDict.id r = user_id) ->
            exists u, first_with_id db user_id u).
  { intros (r & Hin & Hid).
    destruct (id_scan db user_id) as [x|] eqn:E.
    - apply id_scan_Some in E as (v & Hv & _). eauto.
    - apply id_scan_None in E. rewrite Forall_forall in E.
      now destruct (E r Hin). }
  split; [exact Hex|]. split; [|split].
  - intros u Hu. split; [now apply Hfound|].
    intros Hc. simpl. rewrite read_user_run, (id_scan_first db user_id u Hu).
    cbn [fst]. now rewrite render_value, encodable_to_response, Hc.
  - intros Hnone. apply Forall_forall in Hnone. apply id_scan_None in Hnone.
    split.
    + now rewrite read_user_ret, Hnone.
    + simpl. now rewrite read_user_run, Hnone.
  - intros l1 u1 l2 u2 l3 Hdb H1 H2.
    destruct (id_scan (l1 ++ [u1]) user_id) as [x|] eqn:E.
    + apply id_scan_Some in E as (u & (before & after & E & Hid & Hb) & _).
      assert (Hu : first_with_id db user_id u).
      { exists before, (after ++ l2 ++ u2 :: l3). repeat split; try assumption.
        rewrite Hdb.
        change (l1 ++ u1 :: l2 ++ u2 :: l3) with (l1 ++ [u1] ++ l2 ++ u2 :: l3).
        rewrite app_assoc, E, <- app_assoc. reflexivity. }
      exists u, before, after. auto.
    + apply id_scan_None in E. apply Forall_app in E as [_ E].
      inversion E; subst. congruence.
Qed.

Lemma read_user_first_match_witness :
  (fst (read_user 1
          [UserDict.mk 2 (Py.lit "Bo") (Py.lit "b@x.com");
           UserDict.mk 1 (Py.lit "Ann") (Py.lit "a@x.com");
           UserDict.mk 1 (Py.lit "Cy") (Py.lit "c@x.com")]) =
     Return (value (user_obj (UserResponse.mk 1 (Py.lit "Ann") (Py.lit "a@x.com")))) /\
   fst (app (GET_users_id 1)
          [UserDict.mk 2 (Py.lit "Bo") (Py.lit "b@x.com");
           UserDict.mk 1 (Py.lit "Ann") (Py.lit "a@x.com");
           UserDict.mk 1 (Py.lit "Cy") (Py.lit "c@x.com")]) =
     JSONResponse 200 (user_obj (UserResponse.mk 1 (Py.lit "Ann") (Py.lit "a@x.com")))) /\
  fst (read_user 5 [UserDict.mk 2 (Py.lit "Bo") (Py.lit "b@x.com")]) =
    Raise (HTTPException 404 "User not found") /\
  fst (app (GET_users_id 5)
           [UserDict.mk 2 (Py.lit "Bo") (Py.lit "b@x.com")]) =
    JSONResponse 404 (detail_obj "User not found").
Proof.
  split.
  - assert (Hu : first_with_id
                   [UserDict.mk 2 (Py.lit "Bo") (Py.lit "b@x.com");
                    UserDict.mk 1 (Py.lit "Ann") (Py.lit "a@x.com");
                    UserDict.mk 1 (Py.lit "Cy") (Py.lit "c@x.com")] 1
                   (UserDict.mk 1 (Py.lit "Ann") (Py.lit "a@x.com"))).
    { exists [UserDict.mk 2 (Py.lit "Bo") (Py.lit "b@x.com")],
             [UserDict.mk 1 (Py.lit "Cy") (Py.lit "c@x.com")].
      repeat split. repeat constructor. simpl. lia. }
    destruct (proj1 (proj2 (read_user_first_match
             [UserDict.mk 2 (Py.lit "Bo") (Py.lit "b@x.com");
              UserDict.mk 1 (Py.lit "Ann") (Py.lit "a@x.com");
              UserDict.mk 1 (Py.lit "Cy") (Py.lit "c@x.com")] 1))
             (UserDict.mk 1 (Py.lit "Ann") (Py.lit "a@x.com")) Hu) as [H1 H2].
    split; [exact H1 | exact (H2 eq_refl)].
  - apply (proj1 (proj2 (proj2 (read_user_first_match
             [UserDict.mk 2 (Py.lit "Bo") (Py.lit "b@x.com")] 5)))).
    intros r [<-|[]]. simpl. lia.
Defined.

(** ** Slicing *)

Section Slice.

Context {A : Type}.
Implicit Types (l : list A) (start stop skip limit : Z).

(** Between bounds that are not negative the slice is the usual window. *)
Lemma slice_window l skip limit :
  0 <= skip -> 0 <= limit ->
  Py.slice l skip (skip + limit) =
    firstn (Z.to_nat limit) (skipn (Z.to_nat skip) l).
Proof.
  intros Hs Hl. unfold Py.slice, Py.slice_bound.
  destruct (Z.ltb_spec skip 0) as [?|_]; [lia|].
  destruct (Z.ltb_spec (skip + limit) 0) as [?|_]; [lia|].
  destruct (Z_le_gt_dec (Z.of_nat (length l)) skip) as [Hge|Hlt].
  - rewrite !skipn_all2 by lia. now rewrite !firstn_nil.
  - replace (Z.min skip (Z.of_nat (length l))) with skip by lia.
    destruct (Z_le_gt_dec (skip + limit) (Z.of_nat (length l))) as [Hin|Hout].
    + f_equal. lia.
    + rewrite !firstn_all2; [reflexivity| |]; rewrite length_skipn; lia.
Qed.

(** A start at or past the end leaves nothing, whatever the stop. *)
Lemma slice_past_end l start stop :
  Z.of_nat (length l) <= start -> Py.slice l start stop = [].
Proof.
  intros H. unfold Py.slice, Py.slice_bound.
  destruct (Z.ltb_spec start 0) as [?|_]; [lia|].
  rewrite skipn_all2 by lia. apply firstn_nil.
Qed.

(** Never more than [limit] elements, for a [limit] that is not negative. *)
Lemma slice_length l skip limit :
  0 <= limit ->
  (length (Py.slice l skip (skip + limit)) <= Z.to_nat limit)%nat.
Proof.
  intros Hl.
  unfold Py.slice, Py.slice_bound. cbv zeta.
  rewrite length_firstn.
  apply Nat.le_trans with (1 := Nat.le_min_l _ _).
  destruct (Z.ltb_spec skip 0); destruct (Z.ltb_spec (skip + limit) 0); lia.
Qed.

(** A slice is a run of consecutive elements, in the order of the list. *)
Lemma slice_contiguous l start stop :
  exists before after, l = before ++ Py.slice l start stop ++ after.
Proof.
  unfold Py.slice. cbv zeta.
  set (k := Z.to_nat (_ - _)). set (lo := Z.to_nat _).
  exists (firstn lo l), (skipn k (skipn lo l)).
  now rewrite (firstn_skipn k), (firstn_skipn lo).
Qed.

End Slice.

(** ** The read-only endpoints *)

Lemma read_users_ret (db : users_db_t) (skip limit : Z) :
  read_users skip limit db =
    (Return (value (user_list (map to_response (Py.slice db skip (skip + limit))))),
     db).
Proof. reflexivity. Qed.

Lemma read_users_run (db : users_db_t) (skip limit : Z) :
  run (read_users skip limit) db =
    (render (Return (value
       (user_list (map to_response (Py.slice db skip (skip + limit)))))), db).
Proof. reflexivity. Qed.

Lemma encodable_user_list (l : list UserDict.t) :
  encodable (user_list (map to_response l)) = forallb clean l.
Proof.
  simpl. induction l as [|u l IH]; simpl; [reflexivity|]. now rewrite IH.
Qed.

(** The answer to a listing whose window can be encoded. *)
Lemma read_users_clean (db : users_db_t) (skip limit : Z) :
  forallb clean (Py.slice db skip (skip + limit)) = true ->
  fst (run (read_users skip limit) db) =
    JSONResponse 200 (user_list (map to_response (Py.slice db skip (skip + limit)))).
Proof.
  intros H. rewrite read_users_run. cbn [fst].
  now rewrite render_value, encodable_user_list, H.
Qed.

(** C6. On every store and for all integers [skip] and [limit] (0 and 100
    when not given) [read_users] returns, without raising, the slice
    [users_db[skip:skip+limit]], entry by entry: a run of consecutive
    entries in insertion order, of at most [limit] entries when [limit] is
    not negative; for [skip] and [limit] not negative, the [limit] entries
    after the first [skip]; nothing when [skip] is at or past the end.
    Negative bounds of the slice count from the end and bounds out of range
    are clamped.  The slice is the body of the answer, with status 200, when
    the names and emails in it can be encoded.  On a store of three entries
    A, B, C, such as three creations leave, [skip = 1] and [limit = 1]
    give exactly B. *)
Theorem read_users_slice (db : users_db_t) (skip limit : option Z) :
  let s := default 0 skip in
  let l := default 100 limit in
  let window := Py.slice db s (s + l) in
  fst (read_users s l db) = Return (value (user_list (map to_response window))) /\
  (forallb clean window = true ->
   fst (app (GET_users skip limit) db) =
     JSONResponse 200 (user_list (map to_response window))) /\
  (exists before after, db = before ++ window ++ after) /\
  (0 <= l -> (length window <= Z.to_nat l)%nat) /\
  (0 <= s -> 0 <= l -> window = firstn (Z.to_nat l) (skipn (Z.to_nat s) db)) /\
  (Z.of_nat (length db) <= s -> window = []) /\
  Py.slice db (default 0 None) (default 0 None + default 100 None) = firstn 100 db /\
  (forall a b c : UserDict.t,
     fst (read_users 1 1 [a; b; c]) = Return (value (user_list [to_response b])) /\
     (clean b = true ->
      fst (app (GET_users (Some 1) (Some 1)) [a; b; c]) =
        JSONResponse 200 (user_list [to_response b]))) /\
  (forall (ba bb bc : body) (a b c : UserCreate.t),
     validate ba = inl a -> validate bb = inl b -> validate bc = inl c ->
     UserCreate.email a <> UserCreate.email b ->
     UserCreate.email a <> UserCreate.email c ->
     UserCreate.email b <> UserCreate.email c ->
     let db3 := serve [POST_users ba; POST_users bb; POST_users bc] users_db in
     let B := UserResponse.mk (UserCreate.id b) (UserCreate.name b)
                              (UserCreate.email b) in
     length db3 = 3%nat /\
     fst (read_users 1 1 db3) = Return (value (user_list [B])) /\
     (Py.utf8_ok (UserCreate.name b) = true ->
      Py.utf8_ok (UserCreate.email b) = true ->
      fst (app (GET_users (Some 1) (Some 1)) db3) = JSONResponse 200 (user_list [B]))) /\
  Py.slice [1; 2; 3; 4; 5] (-2) (-2 + 100) = [4; 5] /\
  Py.slice [1; 2; 3; 4; 5] (-2) (-2 + 1) = [4] /\
  Py.slice [1; 2; 3; 4; 5] (-9) (-9 + 6) = [1; 2] /\
  Py.slice [1; 2; 3; 4; 5] 3 (3 + -1) = [] /\
  Py.slice [1; 2; 3; 4; 5] 3 (3 + -4) = [4] /\
  Py.slice [1; 2; 3; 4; 5] 0 (0 + -1) = [1; 2; 3; 4] /\
  Py.slice [1; 2; 3; 4; 5] 3 (3 + 100) = [4; 5].
Proof.
  intros s l window.
  split; [reflexivity|].
  split; [apply read_users_clean|].
  split; [apply slice_contiguous|].
  split; [apply slice_length|].
  split; [apply slice_window|].
  split; [apply slice_past_end|].
  split.
  { cbn [default]. now rewrite (slice_window db 0 100), skipn_O by lia. }
  split.
  { intros a b c. split; [reflexivity|].
    intros Hc. change (fst (app (GET_users (Some 1) (Some 1)) [a; b; c]))
      with (fst (run (read_users 1 1) [a; b; c])).
    rewrite read_users_clean; [reflexivity|].
    change (forallb clean [b] = true). cbn [forallb]. now rewrite Hc. }
  split; [|repeat split; reflexivity].
  intros ba bb bc a b c Va Vb Vc Hab Hac Hbc db3 B.
  assert (E : db3 =
            [UserDict.mk (UserCreate.id a) (UserCreate.name a) (UserCreate.email a);
             UserDict.mk (UserCreate.id b) (UserCreate.name b) (UserCreate.email b);
             UserDict.mk (UserCreate.id c) (UserCreate.name c) (UserCreate.email c)]).
  { unfold db3, serve. cbn [fold_left].
    rewrite (app_POST_valid ba a users_db Va).
    rewrite (create_user_fresh_run a users_db) by constructor. cbn [snd].
    rewrite (app_POST_valid bb b _ Vb).
    rewrite (create_user_fresh_run b) by (repeat constructor; assumption). cbn [snd].
    rewrite (app_POST_valid bc c _ Vc).
    rewrite (create_user_fresh_run c) by (repeat constructor; assumption).
    reflexivity. }
  rewrite E. split; [reflexivity|]. split; [reflexivity|].
  intros Un Ue.
  change (fst (app (GET_users (Some 1) (Some 1)) ?d))
    with (fst (run (read_users 1 1) d)).
  rewrite read_users_clean; [reflexivity|].
  change (forallb clean
            [UserDict.mk (UserCreate.id b) (UserCreate.name b) (UserCreate.email b)] =
          true).
  cbn [forallb]. unfold clean. cbn [UserDict.name UserDict.email].
  now rewrite Un, Ue.
Qed.

Lemma read_users_slice_witness :
  length (serve [POST_users (mk_body (Some 1) (Some (Py.lit "A")) (Some (Py.lit "a@x")));
                 POST_users (mk_body (Some 2) (Some (Py.lit "B")) (Some (Py.lit "b@x")));
                 POST_users (mk_body (Some 3) (Some (Py.lit "C")) (Some (Py.lit "c@x")))]
                users_db) = 3%nat /\
  fst (read_users 1 1
         (serve [POST_users (mk_body (Some 1) (Some (Py.lit "A")) (Some (Py.lit "a@x")));
                 POST_users (mk_body (Some 2) (Some (Py.lit "B")) (Some (Py.lit "b@x")));
                 POST_users (mk_body (Some 3) (Some (Py.lit "C")) (Some (Py.lit "c@x")))]
                users_db)) =
    Return (value (user_list [UserResponse.mk 2 (Py.lit "B") (Py.lit "b@x")])) /\
  fst (app (GET_users (Some 1) (Some 1))
           (serve [POST_users (mk_body (Some 1) (Some (Py.lit "A")) (Some (Py.lit "a@x")));
                   POST_users (mk_body (Some 2) (Some (Py.lit "B")) (Some (Py.lit "b@x")));
                   POST_users (mk_body (Some 3) (Some (Py.lit "C")) (Some (Py.lit "c@x")))]
                  users_db)) =
    JSONResponse 200 (user_list [UserResponse.mk 2 (Py.lit "B") (Py.lit "b@x")]).
Proof.
  destruct (proj1 (proj2 (proj2 (proj2 (proj2 (proj2 (proj2 (proj2 (proj2
           (read_users_slice [] None None)))))))))
           (mk_body (Some 1) (Some (Py.lit "A")) (Some (Py.lit "a@x")))
           (mk_body (Some 2) (Some (Py.lit "B")) (Some (Py.lit "b@x")))
           (mk_body (Some 3) (Some (Py.lit "C")) (Some (Py.lit "c@x")))
           (UserCreate.mk 1 (Py.lit "A") (Py.lit "a@x"))
           (UserCreate.mk 2 (Py.lit "B") (Py.lit "b@x"))
           (UserCreate.mk 3 (Py.lit "C") (Py.lit "c@x"))
           eq_refl eq_refl eq_refl
           ltac:(vm_compute; discriminate) ltac:(vm_compute; discriminate)
           ltac:(vm_compute; discriminate)) as (H1 & H2 & H3).
  exact (conj H1 (conj H2 (H3 eq_refl eq_refl))).
Defined.

(** C7. The health check takes no input and is answered, on every store,
    with status 200 and the fixed document [{"status": "OK"}]. *)
Theorem health_check_ok (db db' : users_db_t) :
  fst (app GET_health db) = JSONResponse 200 (status_obj "OK") /\
  fst (app GET_health db) = fst (app GET_health db') /\
  fst (health_check db) = Return (value (status_obj "OK")).
Proof. repeat split. Qed.

(** C8. On every store [debug_users] returns a document whose [users] is
    the whole store in insertion order and whose [users_count] is the
    number of entries of that [users]; the document is the body of the
    answer, with status 200, when the names and emails of the store can be
    encoded. *)
Theorem debug_users_dump (db : users_db_t) :
  exists users_count users,
    fst (debug_users db) = Return (value (debug_obj users_count users)) /\
    users = db /\
    users_count = Z.of_nat (length users) /\
    (forallb clean db = true ->
     fst (app GET_debug_users db) =
       JSONResponse 200 (debug_obj users_count users)).
Proof.
  exists (Z.of_nat (length db)), db. repeat split.
  intros H. change (fst (app GET_debug_users db))
    with (render (Return (value (debug_obj (Z.of_nat (length db)) db)))).
  rewrite render_value. cbn [encodable]. now rewrite H.
Qed.

(** C9. The health check, the debug dump, the listing for any [skip] and
    [limit], and the lookup for any id, found or not, leave the store as it
    was; a request after which the store differs is a creation, and a
    creation does change the store. *)
Theorem reads_leave_store (db : users_db_t) :
  snd (app GET_health db) = db /\
  snd (app GET_debug_users db) = db /\
  (forall skip limit, snd (app (GET_users skip limit) db) = db) /\
  (forall user_id, snd (app (GET_users_id user_id) db) = db) /\
  (forall req, snd (app req db) <> db -> exists b, req = POST_users b) /\
  snd (app (POST_users (mk_body (Some 1) (Some (Py.lit "Ann")) (Some (Py.lit "a@x.com"))))
           users_db) <> users_db.
Proof.
  repeat split.
  - intros user_id. simpl. now rewrite read_user_run.
  - intros req Hreq. destruct (app_store req db) as [E|(user & b & -> & _)].
    + contradiction.
    + eauto.
  - discriminate.
Qed.

(** * Further properties of the service *)

(** ** The request model *)

Lemma forallb_false_iff (n : Py.str) :
  forallb Py.isspace n = false <-> not_blank n.
Proof.
  unfold not_blank. induction n as [|c n IH]; simpl.
  - split; [discriminate | intros (c & [] & _)].
  - destruct (Py.isspace c) eqn:E; simpl.
    + rewrite IH. split.
      * intros (d & Hd & Ed). eauto.
      * intros (d & [<-|Hd] & Ed); [congruence | eauto].
    + split; [eauto | reflexivity].
Qed.

Lemma contains_at_iff (e : Py.str) : Py.contains 64%N e = true <-> In 64%N e.
Proof.
  unfold Py.contains. rewrite existsb_exists. split.
  - intros (x & Hx & Ex). apply N.eqb_eq in Ex. now subst.
  - intros H. exists 64%N. split; [assumption | reflexivity].
Qed.

Lemma name_required_cases (n : Py.str) :
  (forallb Py.isspace n = true /\ name_required n = inr "Name is required"%string) \/
  (forallb Py.isspace n = false /\ name_required n = inl n).
Proof.
  destruct (forallb Py.isspace n) eqn:E.
  - left. split; [reflexivity | now apply name_required_fails].
  - right. split; [reflexivity|]. now apply name_required_ok.
Qed.

Lemma email_must_contain_at_cases (e : Py.str) :
  (~ In 64%N e /\ email_must_contain_at e = inr "Email must contain @"%string) \/
  (In 64%N e /\ email_must_contain_at e = inl e).
Proof.
  unfold email_must_contain_at.
  destruct (Py.contains 64%N e) eqn:E; simpl.
  - right. split; [now apply contains_at_iff | reflexivity].
  - left. split; [|reflexivity]. intros H. apply contains_at_iff in H. congruence.
Qed.

(** X1. Among bodies whose fields, where present, have the types the
    model declares (an integer id, strings for name and email), a body
    passes validation exactly when its three fields are present, its name
    has a character that is not whitespace and its email has an at sign;
    the model then holds the three values as they were sent. *)
Theorem validate_accepts_iff (b : body) (user : UserCreate.t) :
  validate b = inl user <->
  body_id b = Some (UserCreate.id user) /\
  body_name b = Some (UserCreate.name user) /\
  body_email b = Some (UserCreate.email user) /\
  not_blank (UserCreate.name user) /\
  In 64%N (UserCreate.email user).
Proof.
  split.
  - intros V. destruct (validate_ok b user V) as (Hi & Hn & He & Sn & Se).
    repeat split; try assumption.
    + now apply forallb_false_iff.
    + now apply contains_at_iff.
  - intros (Hi & Hn & He & Sn & Se).
    destruct b as [i n e], user as [ui un ue]. simpl in *. subst.
    unfold validate. simpl.
    destruct (name_required_cases un) as [[Hb _]|[_ ->]].
    + apply forallb_false_iff in Sn. congruence.
    + destruct (email_must_contain_at_cases ue) as [[Hb _]|[_ ->]];
        [contradiction | reflexivity].
Qed.

(** X2. Among bodies whose fields, where present, have the types the
    model declares: when validation fails, every field at fault is
    reported, not only the first.  A field is reported missing exactly when
    it is absent, the name is reported, with the message its validator
    raises, exactly when it is present and blank, the email exactly when it
    is present without an at sign.  Nothing else is reported, and each fault
    once; the fields at fault come in the order id, name, email. *)
Theorem validate_reports_every_fault (b : body) (errors : list error_detail) :
  validate b = inr errors ->
  (In (missing f_id) errors <-> body_id b = None) /\
  (In (missing f_name) errors <-> body_name b = None) /\
  (In (missing f_email) errors <-> body_email b = None) /\
  (In (value_error f_name "Name is required") errors <->
     exists n, body_name b = Some n /\ forallb Py.isspace n = true) /\
  (In (value_error f_email "Email must contain @") errors <->
     exists e, body_email b = Some e /\ ~ In 64%N e) /\
  (forall err, In err errors ->
     In err [missing f_id; missing f_name; value_error f_name "Name is required";
             missing f_email; value_error f_email "Email must contain @"]) /\
  NoDup errors /\
  (1 <= length errors <= 3)%nat /\
  map error_loc errors =
    filter (fun loc => existsb (fun err => field_eqb (error_loc err) loc) errors)
           [f_id; f_name; f_email].
Proof.
  destruct b as [i n e]. unfold validate. simpl.
  destruct i as [i|]; destruct n as [n|]; destruct e as [e|]; simpl;
    try (destruct (name_required_cases n) as [[Hn ->]|[Hn ->]]);
    try (destruct (email_must_contain_at_cases e) as [[He ->]|[He ->]]);
    simpl; intros [= <-]; simpl;
    repeat match goal with
    | |- _ /\ _ => split
    | |- _ <-> _ => split
    | |- NoDup _ => repeat constructor; simpl; intuition discriminate
    | |- (_ <= _)%nat => lia
    | |- forall err, _ -> _ => intros err Herr; simpl in *; intuition (subst; auto)
    | |- _ = _ => reflexivity
    | |- _ -> _ => intros H
    end;
    repeat match goal with
    | H : exists _, _ /\ _ |- _ => let x := fresh in let E := fresh in
                                   destruct H as (x & E & H); try discriminate E;
                                   try (injection E as <-)
    | H : _ \/ _ |- _ => destruct H
    | H : False |- _ => destruct H
    end;
    try discriminate; try congruence; try contradiction; auto;
    try (eexists; split; [reflexivity|assumption]).
Qed.

Lemma validate_reports_every_fault_witness :
  (In (missing f_id) [missing f_id; value_error f_name "Name is required";
                      value_error f_email "Email must contain @"] <->
     @None Z = None) /\
  (In (value_error f_email "Email must contain @")
      [missing f_id; value_error f_name "Name is required";
       value_error f_email "Email must contain @"] <->
     exists e, Some (Py.lit "ann.x.com") = Some e /\ ~ In 64%N e).
Proof.
  pose proof (validate_reports_every_fault
                (mk_body None (Some (Py.lit "  ")) (Some (Py.lit "ann.x.com")))
                [missing f_id; value_error f_name "Name is required";
                 value_error f_email "Email must contain @"] eq_refl)
    as (H1 & _ & _ & _ & H5 & _).
  exact (conj H1 H5).
Defined.

(** ** Outcomes of the routes *)

Lemma email_taken_not_fresh (db : users_db_t) (e : Py.str) :
  email_taken db e -> Forall (fun r => UserDict.email r <> e) db -> False.
Proof.
  intros (r & Hin & He) F. rewrite Forall_forall in F. now apply (F r Hin).
Qed.

Lemma clean_entry_of (user : UserCreate.t) :
  clean (entry_of user) =
    Py.utf8_ok (UserCreate.name user) && Py.utf8_ok (UserCreate.email user).
Proof. reflexivity. Qed.

(** The answer to a creation that reached the end of [create_user]. *)
Lemma create_user_answer (user : UserCreate.t) (db : users_db_t) :
  Forall (fun r => UserDict.email r <> UserCreate.email user) db ->
  run (create_user user) db =
    (if clean (entry_of user)
     then JSONResponse 200 (user_obj (to_response (entry_of user)))
     else internal_server_error,
     db ++ [entry_of user]).
Proof. intros F. now rewrite (create_user_fresh_run user db F), render_value. Qed.

(** X3. A creation request has four outcomes, which exclude each other:
    status 422 exactly when the body fails validation; status 400 exactly
    when it passes and its email is taken; status 200 exactly when it
    passes, its email is that of no entry, and its name and email can be
    encoded; status 500 exactly when it passes, its email is that of no
    entry, and its name or its email holds a surrogate.  The store changes
    in the last two cases: a request answered with 500 has put its entry
    in the store all the same. *)
Theorem create_user_outcomes (b : body) (db : users_db_t) :
  let resp := fst (app (POST_users b) db) in
  let db' := snd (app (POST_users b) db) in
  (status_code resp = 422 <-> exists errors, validate b = inr errors) /\
  (status_code resp = 400 <->
     exists user, validate b = inl user /\ email_taken db (UserCreate.email user)) /\
  (status_code resp = 200 <->
     exists user, validate b = inl user /\
                  ~ email_taken db (UserCreate.email user) /\
                  clean (entry_of user) = true) /\
  (status_code resp = 500 <->
     exists user, validate b = inl user /\
                  ~ email_taken db (UserCreate.email user) /\
                  clean (entry_of user) = false) /\
  (status_code resp = 422 \/ status_code resp = 400 \/
   status_code resp = 200 \/ status_code resp = 500) /\
  (db' <> db <-> status_code resp = 200 \/ status_code resp = 500) /\
  (status_code resp = 500 ->
   resp = internal_server_error /\
   exists user, validate b = inl user /\ db' = db ++ [entry_of user]).
Proof.
  cbv zeta.
  destruct (validate b) as [user|errors] eqn:V.
  - rewrite (app_POST_valid b user db V).
    destruct (email_taken_dec db (UserCreate.email user)) as [T|F].
    + rewrite (create_user_taken user db T). cbn [fst snd status_code].
      repeat split; try discriminate;
        try (intros (x & E & _); discriminate E);
        try (intros (x & E); discriminate E); auto.
      * eauto.
      * intros (x & [= <-] & Hx & _). contradiction.
      * intros (x & [= <-] & Hx & _). contradiction.
      * intros H. now destruct H.
      * intros [H|H]; discriminate H.
    + assert (NT : ~ email_taken db (UserCreate.email user))
        by (intros T; exact (email_taken_not_fresh _ _ T F)).
      assert (Hne : db ++ [entry_of user] <> db).
      { intros E. apply (f_equal (@length _)) in E.
        rewrite length_app in E. simpl in E. lia. }
      rewrite (create_user_answer user db F).
      destruct (clean (entry_of user)) eqn:C; cbn [fst snd status_code internal_server_error];
        repeat split; try discriminate;
        try (intros (x & E); discriminate E); auto;
        try (intros (x & [= <-] & Hx); destruct (email_taken_not_fresh _ _ Hx F));
        try (intros (x & [= <-] & _ & Hx); congruence);
        try (intros _; exists user; auto); eauto.
  - simpl. rewrite V. simpl.
    repeat split; try discriminate; try (intros (x & E & _); discriminate E); auto.
    + eauto.
    + intros H. now destruct H.
    + intros [H|H]; discriminate H.
Qed.


(** ** Sequences of requests *)

Lemma serve_cons (req : request) (reqs : list request) (db : users_db_t) :
  serve (req :: reqs) db = serve reqs (snd (app req db)).
Proof. reflexivity. Qed.

(** One request adds nothing or one entry at the end; with the entry the
    request was a creation answered with 200 or 500, without it it was
    not. *)
Lemma app_step (req : request) (db : users_db_t) :
  (snd (app req db) = db /\ is_creation (req, fst (app req db)) = false) \/
  (exists user b,
     req = POST_users b /\ validate b = inl user /\
     ~ email_taken db (UserCreate.email user) /\
     snd (app req db) = db ++ [entry_of user] /\
     is_creation (req, fst (app req db)) = true).
Proof.
  destruct req as [| |b|skip limit|user_id]; try (left; split; reflexivity).
  - destruct (validate b) as [user|errors] eqn:V.
    + rewrite (app_POST_valid b user db V).
      destruct (email_taken_dec db (UserCreate.email user)) as [T|F].
      * left. now rewrite (create_user_taken user db T).
      * right. exists user, b. rewrite (create_user_answer user db F).
        repeat split; try assumption.
        -- intros T. exact (email_taken_not_fresh _ _ T F).
        -- unfold is_creation. cbn [fst snd is_POST].
           now destruct (clean (entry_of user)).
    + left. simpl. now rewrite V.
  - left. simpl. rewrite read_user_run. split; [reflexivity|].
    unfold is_creation. reflexivity.
Qed.

Lemma serve_extends (reqs : list request) (db : users_db_t) :
  exists added, serve reqs db = db ++ added.
Proof.
  revert db. induction reqs as [|req reqs IH]; intros db.
  - exists []. simpl. now rewrite app_nil_r.
  - rewrite serve_cons. destruct (IH (snd (app req db))) as (added & ->).
    destruct (app_step req db) as [[-> _]|(user & b & _ & _ & _ & -> & _)].
    + now exists added.
    + exists (entry_of user :: added). now rewrite <- app_assoc.
Qed.

(** X5. The store only grows at its end: after any sequence of requests
    the entries that were there are still there, unchanged and at the same
    positions, followed by the entries added since; no request removes,
    replaces or reorders an entry.  At most one entry is added per creation
    request of the sequence. *)
Theorem store_append_only (reqs : list request) (db : users_db_t) :
  exists added,
    serve reqs db = db ++ added /\
    (forall k u, nth_error db k = Some u -> nth_error (serve reqs db) k = Some u) /\
    (length added <= length (filter is_POST reqs))%nat.
Proof.
  assert (H : exists added, serve reqs db = db ++ added /\
                (length added <= length (filter is_POST reqs))%nat).
  { revert db. induction reqs as [|req reqs IH]; intros db.
    - exists []. simpl. rewrite app_nil_r. auto.
    - rewrite serve_cons. destruct (IH (snd (app req db))) as (added & -> & Hlen).
      destruct (app_step req db) as [[-> _]|(user & b & -> & _ & _ & -> & _)].
      + exists added. split; [reflexivity|].
        simpl. destruct (is_POST req); simpl; lia.
      + exists (entry_of user :: added). rewrite <- app_assoc.
        split; [reflexivity|]. simpl. lia. }
  destruct H as (added & E & Hlen). exists added.
  repeat split; try assumption.
  intros k u Hk. rewrite E. rewrite nth_error_app1; [assumption|].
  apply nth_error_Some. congruence.
Qed.

(** X6. The number of entries after a sequence of requests is the number
    before plus the number of creation requests of the sequence that were
    answered with status 200 or with status 500: a creation answered with
    500 counts, its entry is in the store. *)
Theorem count_is_creations (reqs : list request) (db : users_db_t) :
  length (serve reqs db) =
    (length db + length (filter is_creation (trace reqs db)))%nat.
Proof.
  revert db. induction reqs as [|req reqs IH]; intros db.
  - simpl. lia.
  - rewrite serve_cons, IH. cbn [trace filter].
    destruct (app_step req db) as [[-> ->]|(user & b & _ & _ & _ & -> & ->)].
    + reflexivity.
    + rewrite length_app. simpl. lia.
Qed.

(** X7. Requests other than creations can be left out of a sequence
    without changing the store it leads to. *)
Theorem serve_only_creations (reqs : list request) (db : users_db_t) :
  serve reqs db = serve (filter is_POST reqs) db.
Proof.
  revert db. induction reqs as [|req reqs IH]; intros db; [reflexivity|].
  destruct req as [| |b|skip limit|user_id]; cbn [filter is_POST];
    rewrite !serve_cons, IH; try reflexivity.
  simpl. now rewrite read_user_run.
Qed.

(** ** What later requests cannot undo *)

Lemma email_taken_app (db added : users_db_t) (e : Py.str) :
  email_taken db e -> email_taken (db ++ added) e.
Proof. intros (r & Hin & He). exists r. split; [apply in_or_app; now left | assumption]. Qed.

Lemma email_taken_serve (reqs : list request) (db : users_db_t) (e : Py.str) :
  email_taken db e -> email_taken (serve reqs db) e.
Proof.
  intros T. destruct (serve_extends reqs db) as (added & ->).
  now apply email_taken_app.
Qed.

(** Once a validated creation request was served, its email is taken,
    whichever way the request was answered. *)
Lemma email_taken_after (b : body) (user : UserCreate.t) (db : users_db_t) :
  validate b = inl user ->
  email_taken (snd (app (POST_users b) db)) (UserCreate.email user).
Proof.
  intros V. rewrite (app_POST_valid b user db V).
  destruct (email_taken_dec db (UserCreate.email user)) as [T|F].
  - now rewrite (create_user_taken user db T).
  - rewrite (create_user_answer user db F). cbn [snd].
    exists (entry_of user). split; [apply in_or_app; right; now left | reflexivity].
Qed.

Lemma first_with_id_app (db added : users_db_t) (i : Z) (u : UserDict.t) :
  first_with_id db i u -> first_with_id (db ++ added) i u.
Proof.
  intros (before & after & -> & Hid & Hb).
  exists before, (after ++ added). repeat split; try assumption.
  now rewrite <- app_assoc.
Qed.

Lemma read_user_found (db : users_db_t) (i : Z) (u : UserDict.t) :
  first_with_id db i u ->
  fst (read_user i db) = Return (value (user_obj (to_response u))).
Proof. intros Hu. now rewrite read_user_ret, (id_scan_first db i u Hu). Qed.

Lemma read_user_answer (db : users_db_t) (i : Z) (u : UserDict.t) :
  first_with_id db i u ->
  fst (app (GET_users_id i) db) =
    render (Return (value (user_obj (to_response u)))).
Proof.
  intros Hu. simpl. now rewrite read_user_run, (id_scan_first db i u Hu).
Qed.

Lemma read_user_clean (db : users_db_t) (i : Z) (u : UserDict.t) :
  first_with_id db i u -> clean u = true ->
  fst (app (GET_users_id i) db) = JSONResponse 200 (user_obj (to_response u)).
Proof.
  intros Hu Hc.
  now rewrite (read_user_answer db i u Hu), render_value, encodable_to_response, Hc.
Qed.

Lemma first_with_id_new (db : users_db_t) (u : UserDict.t) :
  ~ id_taken db (UserDict.id u) -> first_with_id (db ++ [u]) (UserDict.id u) u.
Proof.
  intros H. exists db, []. repeat split.
  apply Forall_forall. intros r Hin E. apply H. now exists r.
Qed.

(** X8. An email can be registered once: after a creation request that
    passed validation was served, whatever its answer and whatever was
    served since, a creation request with the same email that passes
    validation is answered with status 400 and leaves the store as it
    is. *)
Theorem same_email_rejected_later
    (b b' : body) (user user' : UserCreate.t) (reqs : list request) (db : users_db_t) :
  validate b = inl user ->
  validate b' = inl user' ->
  UserCreate.email user' = UserCreate.email user ->
  app (POST_users b') (serve (POST_users b :: reqs) db) =
    (JSONResponse 400 (error_obj "User already exists"),
     serve (POST_users b :: reqs) db).
Proof.
  intros V V' E.
  rewrite (app_POST_valid b' user' _ V'). apply create_user_taken.
  rewrite E, serve_cons. apply email_taken_serve. now apply email_taken_after.
Qed.

Lemma same_email_rejected_later_witness :
  app (POST_users (mk_body (Some 2) (Some (Py.lit "Ann")) (Some (Py.lit "a@x.com"))))
      (serve [POST_users (mk_body (Some 1) (Some (Py.lit "Ann")) (Some (Py.lit "a@x.com")));
              GET_users None None]
             users_db) =
    (JSONResponse 400 (error_obj "User already exists"),
     serve [POST_users (mk_body (Some 1) (Some (Py.lit "Ann")) (Some (Py.lit "a@x.com")));
            GET_users None None]
           users_db).
Proof.
  apply (same_email_rejected_later
           (mk_body (Some 1) (Some (Py.lit "Ann")) (Some (Py.lit "a@x.com")))
           (mk_body (Some 2) (Some (Py.lit "Ann")) (Some (Py.lit "a@x.com")))
           (UserCreate.mk 1 (Py.lit "Ann") (Py.lit "a@x.com"))
           (UserCreate.mk 2 (Py.lit "Ann") (Py.lit "a@x.com"))
           [GET_users None None] users_db); reflexivity.
Defined.

(** X9. A lookup keeps its answer: when an id resolves to an entry of the
    store, [read_user] returns that entry after any sequence of requests,
    also after creations that use the same id, and the answer to the lookup
    is the one it was before; it is the entry, with status 200, when the
    entry can be encoded. *)
Theorem lookup_stable (reqs : list request) (db : users_db_t) (i : Z) (u : UserDict.t) :
  first_with_id db i u ->
  fst (read_user i (serve reqs db)) = Return (value (user_obj (to_response u))) /\
  fst (app (GET_users_id i) (serve reqs db)) = fst (app (GET_users_id i) db) /\
  (clean u = true ->
   fst (app (GET_users_id i) (serve reqs db)) =
     JSONResponse 200 (user_obj (to_response u))).
Proof.
  intros Hu.
  assert (Hs : first_with_id (serve reqs db) i u).
  { destruct (serve_extends reqs db) as (added & ->). now apply first_with_id_app. }
  split; [now apply read_user_found|]. split.
  - now rewrite (read_user_answer _ i u Hs), (read_user_answer _ i u Hu).
  - intros Hc. now apply read_user_clean.
Qed.

Lemma lookup_stable_witness :
  fst (read_user 1
         (serve [POST_users (mk_body (Some 1) (Some (Py.lit "Bob")) (Some (Py.lit "b@x.com")))]
                [UserDict.mk 1 (Py.lit "Ann") (Py.lit "a@x.com")])) =
    Return (value (user_obj (UserResponse.mk 1 (Py.lit "Ann") (Py.lit "a@x.com")))) /\
  fst (app (GET_users_id 1)
           (serve [POST_users (mk_body (Some 1) (Some (Py.lit "Bob")) (Some (Py.lit "b@x.com")))]
                  [UserDict.mk 1 (Py.lit "Ann") (Py.lit "a@x.com")])) =
    fst (app (GET_users_id 1) [UserDict.mk 1 (Py.lit "Ann") (Py.lit "a@x.com")]) /\
  fst (app (GET_users_id 1)
           (serve [POST_users (mk_body (Some 1) (Some (Py.lit "Bob")) (Some (Py.lit "b@x.com")))]
                  [UserDict.mk 1 (Py.lit "Ann") (Py.lit "a@x.com")])) =
    JSONResponse 200 (user_obj (UserResponse.mk 1 (Py.lit "Ann") (Py.lit "a@x.com"))).
Proof.
  destruct (lookup_stable
           [POST_users (mk_body (Some 1) (Some (Py.lit "Bob")) (Some (Py.lit "b@x.com")))]
           [UserDict.mk 1 (Py.lit "Ann") (Py.lit "a@x.com")] 1
           (UserDict.mk 1 (Py.lit "Ann") (Py.lit "a@x.com"))) as (H1 & H2 & H3).
  - exists [], []. repeat split. constructor.
  - exact (conj H1 (conj H2 (H3 eq_refl))).
Defined.

(** X10. Creation then lookup: after a creation request that passes
    validation, with an email and an id that no entry of the store has,
    [read_user] returns the record of the request for that id, at once and
    after any further requests; the record is the answer to the lookup,
    with status 200, when its name and email can be encoded. *)
Theorem create_then_lookup
    (b : body) (user : UserCreate.t) (reqs : list request) (db : users_db_t) :
  validate b = inl user ->
  ~ email_taken db (UserCreate.email user) ->
  ~ id_taken db (UserCreate.id user) ->
  let db' := serve (POST_users b :: reqs) db in
  let record := UserResponse.mk (UserCreate.id user) (UserCreate.name user)
                                (UserCreate.email user) in
  fst (read_user (UserCreate.id user) db') = Return (value (user_obj record)) /\
  (Py.utf8_ok (UserCreate.name user) = true ->
   Py.utf8_ok (UserCreate.email user) = true ->
   fst (app (GET_users_id (UserCreate.id user)) db') =
     JSONResponse 200 (user_obj record)).
Proof.
  intros V He Hi db' record.
  assert (Hu : first_with_id db' (UserCreate.id user) (entry_of user)).
  { unfold db'. rewrite serve_cons.
    destruct (serve_extends reqs (snd (app (POST_users b) db))) as (added & ->).
    apply first_with_id_app.
    rewrite (app_POST_valid b user db V).
    destruct (email_taken_dec db (UserCreate.email user)) as [T|F]; [contradiction|].
    rewrite (create_user_answer user db F). cbn [snd].
    now apply (first_with_id_new db (entry_of user)). }
  split.
  - now apply (read_user_found _ _ (entry_of user)).
  - intros Un Ue. apply (read_user_clean _ _ (entry_of user) Hu).
    now rewrite clean_entry_of, Un, Ue.
Qed.

Lemma create_then_lookup_witness :
  fst (read_user 2
         (serve [POST_users (mk_body (Some 2) (Some (Py.lit "Bob")) (Some (Py.lit "b@x.com")));
                 POST_users (mk_body (Some 2) (Some (Py.lit "Cy")) (Some (Py.lit "c@x.com")))]
                [UserDict.mk 1 (Py.lit "Ann") (Py.lit "a@x.com")])) =
    Return (value (user_obj (UserResponse.mk 2 (Py.lit "Bob") (Py.lit "b@x.com")))) /\
  fst (app (GET_users_id 2)
           (serve [POST_users (mk_body (Some 2) (Some (Py.lit "Bob")) (Some (Py.lit "b@x.com")));
                   POST_users (mk_body (Some 2) (Some (Py.lit "Cy")) (Some (Py.lit "c@x.com")))]
                  [UserDict.mk 1 (Py.lit "Ann") (Py.lit "a@x.com")])) =
    JSONResponse 200 (user_obj (UserResponse.mk 2 (Py.lit "Bob") (Py.lit "b@x.com"))).
Proof.
  destruct (create_then_lookup
           (mk_body (Some 2) (Some (Py.lit "Bob")) (Some (Py.lit "b@x.com")))
           (UserCreate.mk 2 (Py.lit "Bob") (Py.lit "b@x.com"))
           [POST_users (mk_body (Some 2) (Some (Py.lit "Cy")) (Some (Py.lit "c@x.com")))]
           [UserDict.mk 1 (Py.lit "Ann") (Py.lit "a@x.com")]) as (H1 & H2).
  - reflexivity.
  - intros (r & [<-|[]] & E). vm_compute in E. discriminate.
  - intros (r & [<-|[]] & E). simpl in E. lia.
  - exact (conj H1 (H2 eq_refl eq_refl)).
Defined.

Lemma in_serve (reqs : list request) (db : users_db_t) (u : UserDict.t) :
  In u db -> In u (serve reqs db).
Proof.
  intros H. destruct (serve_extends reqs db) as (added & ->).
  apply in_or_app. now left.
Qed.

(** Every entry of the store after a sequence of requests was there
    before, or was submitted by a creation request of the sequence. *)
Lemma serve_entries (reqs : list request) (db : users_db_t) (u : UserDict.t) :
  In u (serve reqs db) -> In u db \/ submitted reqs u.
Proof.
  revert db. induction reqs as [|req reqs IH]; intros db; [now left|].
  rewrite serve_cons. intros H. apply IH in H as [H|H].
  - destruct (app_step req db) as [[E _]|(user & b & -> & V & _ & E & _)];
      rewrite E in H; [now left|].
    apply in_app_or in H as [H|[<-|[]]]; [now left|].
    right. left. destruct (validated_well_formed b user V) as [-> _]. reflexivity.
  - right. right. exact H.
Qed.

Lemma emails_unique_inj (db : users_db_t) (u v : UserDict.t) :
  emails_unique db -> In u db -> In v db ->
  UserDict.email u = UserDict.email v -> u = v.
Proof.
  unfold emails_unique. induction db as [|x db IH]; simpl; [contradiction|].
  intros H Hu Hv E. apply NoDup_cons_iff in H as [Hx H].
  destruct Hu as [->|Hu], Hv as [->|Hv]; auto.
  - destruct Hx. rewrite E. now apply in_map.
  - destruct Hx. rewrite <- E. now apply in_map.
Qed.

(** X11. Ids are not checked: a creation request that passes validation,
    with an email that is free and an id that an entry already has, is
    stored (and answered with status 200 when its name and email can be
    encoded); for that id [read_user] goes on returning the older entry,
    which is another record than the new one. *)
Theorem duplicate_id_accepted_but_shadowed
    (b : body) (user : UserCreate.t) (u : UserDict.t)
    (reqs : list request) (db : users_db_t) :
  validate b = inl user ->
  ~ email_taken db (UserCreate.email user) ->
  first_with_id db (UserCreate.id user) u ->
  snd (app (POST_users b) db) = db ++ [entry_of user] /\
  (clean (entry_of user) = true ->
   fst (app (POST_users b) db) =
     JSONResponse 200 (user_obj (to_response (entry_of user)))) /\
  In (entry_of user) (serve (POST_users b :: reqs) db) /\
  fst (read_user (UserCreate.id user) (serve (POST_users b :: reqs) db)) =
    Return (value (user_obj (to_response u))) /\
  to_response u <> to_response (entry_of user).
Proof.
  intros V He Hu.
  destruct (email_taken_dec db (UserCreate.email user)) as [T|F]; [contradiction|].
  assert (Happ : app (POST_users b) db =
            (if clean (entry_of user)
             then JSONResponse 200 (user_obj (to_response (entry_of user)))
             else internal_server_error,
             db ++ [entry_of user])).
  { rewrite (app_POST_valid b user db V). now apply create_user_answer. }
  split; [now rewrite Happ|]. split; [|split; [|split]].
  - intros Hc. now rewrite Happ, Hc.
  - rewrite serve_cons, Happ. apply in_serve, in_or_app. right. now left.
  - apply read_user_found.
    destruct (serve_extends (POST_users b :: reqs) db) as (added & ->).
    now apply first_with_id_app.
  - intros E. apply He. exists u. split.
    + destruct Hu as (before & after & -> & _). apply in_or_app. right. now left.
    + apply (f_equal UserResponse.email) in E. exact E.
Qed.

Lemma duplicate_id_accepted_but_shadowed_witness :
  snd (app (POST_users (mk_body (Some 1) (Some (Py.lit "Bob")) (Some (Py.lit "b@x.com"))))
           [UserDict.mk 1 (Py.lit "Ann") (Py.lit "a@x.com")]) =
    [UserDict.mk 1 (Py.lit "Ann") (Py.lit "a@x.com")] ++
    [entry_of (UserCreate.mk 1 (Py.lit "Bob") (Py.lit "b@x.com"))] /\
  fst (app (POST_users (mk_body (Some 1) (Some (Py.lit "Bob")) (Some (Py.lit "b@x.com"))))
           [UserDict.mk 1 (Py.lit "Ann") (Py.lit "a@x.com")]) =
    JSONResponse 200
      (user_obj (to_response (entry_of (UserCreate.mk 1 (Py.lit "Bob") (Py.lit "b@x.com"))))) /\
  In (entry_of (UserCreate.mk 1 (Py.lit "Bob") (Py.lit "b@x.com")))
     (serve [POST_users (mk_body (Some 1) (Some (Py.lit "Bob")) (Some (Py.lit "b@x.com")))]
            [UserDict.mk 1 (Py.lit "Ann") (Py.lit "a@x.com")]) /\
  fst (read_user 1
         (serve [POST_users (mk_body (Some 1) (Some (Py.lit "Bob")) (Some (Py.lit "b@x.com")))]
                [UserDict.mk 1 (Py.lit "Ann") (Py.lit "a@x.com")])) =
    Return (value (user_obj (to_response (UserDict.mk 1 (Py.lit "Ann") (Py.lit "a@x.com"))))) /\
  to_response (UserDict.mk 1 (Py.lit "Ann") (Py.lit "a@x.com")) <>
    to_response (entry_of (UserCreate.mk 1 (Py.lit "Bob") (Py.lit "b@x.com"))).
Proof.
  destruct (duplicate_id_accepted_but_shadowed
           (mk_body (Some 1) (Some (Py.lit "Bob")) (Some (Py.lit "b@x.com")))
           (UserCreate.mk 1 (Py.lit "Bob") (Py.lit "b@x.com"))
           (UserDict.mk 1 (Py.lit "Ann") (Py.lit "a@x.com"))
           [] [UserDict.mk 1 (Py.lit "Ann") (Py.lit "a@x.com")])
    as (H1 & H2 & H3 & H4 & H5).
  - reflexivity.
  - intros (r & [<-|[]] & E). vm_compute in E. discriminate.
  - exists [], []. repeat split. constructor.
  - exact (conj H1 (conj (H2 eq_refl) (conj H3 (conj H4 H5)))).
Defined.

(** X12. An id that no creation request of a sequence carries is not
    found after the sequence, served from the empty store: the lookup is
    answered with status 404 and the detail "User not found". *)
Theorem unknown_id_not_found (reqs : list request) (i : Z) :
  (forall b, In (POST_users b) reqs -> body_id b <> Some i) ->
  fst (app (GET_users_id i) (serve reqs users_db)) =
    JSONResponse 404 (detail_obj "User not found").
Proof.
  intros H. simpl. rewrite read_user_run.
  destruct (id_scan (serve reqs users_db) i) as [r|] eqn:E; [|reflexivity].
  apply id_scan_Some in E as (u & (before & after & E & Hid & _) & _).
  assert (Hin : In u (serve reqs users_db)).
  { rewrite E. apply in_or_app. right. now left. }
  apply serve_entries in Hin as [[]|Hs].
  apply H in Hs. simpl in Hs. congruence.
Qed.

Lemma unknown_id_not_found_witness :
  fst (app (GET_users_id 5)
           (serve [POST_users (mk_body (Some 1) (Some (Py.lit "Ann")) (Some (Py.lit "a@x.com")));
                   GET_users_id 5]
                  users_db)) =
    JSONResponse 404 (detail_obj "User not found").
Proof.
  apply (unknown_id_not_found
           [POST_users (mk_body (Some 1) (Some (Py.lit "Ann")) (Some (Py.lit "a@x.com")));
            GET_users_id 5] 5).
  intros b [E|[E|[]]]; [|discriminate E].
  injection E as <-. simpl. discriminate.
Defined.

(** X13. The first registration of an email is the one kept: on a store
    without two entries of one email, after a creation request that passes
    validation with a free email, and after any further requests, the
    store has the record of that request, and no other entry with its
    email. *)
Theorem first_registration_kept
    (b : body) (user : UserCreate.t) (reqs : list request) (db : users_db_t) :
  emails_unique db ->
  validate b = inl user ->
  ~ email_taken db (UserCreate.email user) ->
  In (entry_of user) (serve (POST_users b :: reqs) db) /\
  forall u, In u (serve (POST_users b :: reqs) db) ->
            UserDict.email u = UserCreate.email user -> u = entry_of user.
Proof.
  intros U V He.
  destruct (email_taken_dec db (UserCreate.email user)) as [T|F]; [contradiction|].
  assert (Hin : In (entry_of user) (serve (POST_users b :: reqs) db)).
  { rewrite serve_cons, (app_POST_valid b user db V), (create_user_answer user db F).
    apply in_serve, in_or_app. right. now left. }
  split; [exact Hin|].
  intros u Hu E.
  apply (emails_unique_inj (serve (POST_users b :: reqs) db)); try assumption.
  apply serve_preserves; [|exact U].
  intros req d. apply emails_unique_step.
Qed.

Lemma first_registration_kept_witness :
  In (entry_of (UserCreate.mk 1 (Py.lit "Ann") (Py.lit "a@x.com")))
     (serve [POST_users (mk_body (Some 1) (Some (Py.lit "Ann")) (Some (Py.lit "a@x.com")));
             POST_users (mk_body (Some 2) (Some (Py.lit "Eve")) (Some (Py.lit "a@x.com")))]
            users_db) /\
  forall u,
    In u (serve [POST_users (mk_body (Some 1) (Some (Py.lit "Ann")) (Some (Py.lit "a@x.com")));
                 POST_users (mk_body (Some 2) (Some (Py.lit "Eve")) (Some (Py.lit "a@x.com")))]
                users_db) ->
    UserDict.email u = Py.lit "a@x.com" ->
    u = entry_of (UserCreate.mk 1 (Py.lit "Ann") (Py.lit "a@x.com")).
Proof.
  apply (first_registration_kept
           (mk_body (Some 1) (Some (Py.lit "Ann")) (Some (Py.lit "a@x.com")))
           (UserCreate.mk 1 (Py.lit "Ann") (Py.lit "a@x.com"))
           [POST_users (mk_body (Some 2) (Some (Py.lit "Eve")) (Some (Py.lit "a@x.com")))]
           users_db).
  - constructor.
  - reflexivity.
  - intros (r & [] & _).
Defined.

(** ** Pages of the listing *)

(** A page is the list of records [read_users] returns for an offset and a
    size; it is the body of the answer, with status 200, when its records
    can be encoded. *)

Lemma listed_slice (skip limit : Z) (db : users_db_t) :
  listed skip limit db = map to_response (Py.slice db skip (skip + limit)).
Proof. reflexivity. Qed.

Lemma listed_window (skip limit : Z) (db : users_db_t) :
  0 <= skip -> 0 <= limit ->
  listed skip limit db =
    map to_response (firstn (Z.to_nat limit) (skipn (Z.to_nat skip) db)).
Proof. intros Hs Hl. now rewrite listed_slice, slice_window. Qed.

Lemma firstn_add {A : Type} (a b : nat) (l : list A) :
  firstn (a + b) l = firstn a l ++ firstn b (skipn a l).
Proof.
  revert l. induction a as [|a IH]; intros [|x l]; simpl;
    try reflexivity; [now rewrite firstn_nil | now rewrite IH].
Qed.

(** X14. Consecutive pages join: for offsets and sizes that are not
    negative, the page [read_users] returns for [l1] records at [skip],
    followed by the page for [l2] records at [skip + l1], is the page for
    [l1 + l2] records at [skip]. *)
Theorem pages_concatenate (skip l1 l2 : Z) (db : users_db_t) :
  0 <= skip -> 0 <= l1 -> 0 <= l2 ->
  listed skip l1 db ++ listed (skip + l1) l2 db = listed skip (l1 + l2) db.
Proof.
  intros Hs H1 H2. rewrite !listed_window by lia.
  rewrite <- map_app. f_equal.
  rewrite !Z2Nat.inj_add by lia.
  rewrite firstn_add, skipn_skipn. do 3 f_equal. lia.
Qed.

Lemma pages_concatenate_witness :
  listed 1 1 [UserDict.mk 1 (Py.lit "A") (Py.lit "a@x");
              UserDict.mk 2 (Py.lit "B") (Py.lit "b@x");
              UserDict.mk 3 (Py.lit "C") (Py.lit "c@x")] ++
  listed (1 + 1) 5 [UserDict.mk 1 (Py.lit "A") (Py.lit "a@x");
                    UserDict.mk 2 (Py.lit "B") (Py.lit "b@x");
                    UserDict.mk 3 (Py.lit "C") (Py.lit "c@x")] =
  listed 1 (1 + 5) [UserDict.mk 1 (Py.lit "A") (Py.lit "a@x");
                    UserDict.mk 2 (Py.lit "B") (Py.lit "b@x");
                    UserDict.mk 3 (Py.lit "C") (Py.lit "c@x")].
Proof.
  apply (pages_concatenate 1 1 5
           [UserDict.mk 1 (Py.lit "A") (Py.lit "a@x");
            UserDict.mk 2 (Py.lit "B") (Py.lit "b@x");
            UserDict.mk 3 (Py.lit "C") (Py.lit "c@x")]); lia.
Defined.

(** X15. Paging reads the whole store once: with a page size above zero,
    the pages [read_users] returns at offsets 0, [limit], 2 [limit], ...,
    taken until they reach the end of the store, hold every entry exactly
    once, in insertion order. *)
Theorem pages_cover_store (limit : Z) (pages : nat) (db : users_db_t) :
  0 < limit ->
  Z.of_nat (length db) <= Z.of_nat pages * limit ->
  flat_map (fun k => listed (Z.of_nat k * limit) limit db) (seq 0 pages) =
    map to_response db.
Proof.
  intros Hl Hn.
  assert (H : forall m,
            flat_map (fun k => listed (Z.of_nat k * limit) limit db) (seq 0 m) =
              map to_response (firstn (m * Z.to_nat limit) db)).
  { induction m as [|m IH]; [reflexivity|].
    rewrite seq_S, flat_map_app, IH. simpl. rewrite app_nil_r.
    rewrite listed_window by lia.
    rewrite <- map_app. f_equal.
    rewrite (Nat.add_comm (Z.to_nat limit)), firstn_add. do 3 f_equal. lia. }
  rewrite H. f_equal. apply firstn_all2. lia.
Qed.

Lemma pages_cover_store_witness :
  flat_map (fun k => listed (Z.of_nat k * 2) 2
                       [UserDict.mk 1 (Py.lit "A") (Py.lit "a@x");
                        UserDict.mk 2 (Py.lit "B") (Py.lit "b@x");
                        UserDict.mk 3 (Py.lit "C") (Py.lit "c@x")])
           (seq 0 2) =
    map to_response [UserDict.mk 1 (Py.lit "A") (Py.lit "a@x");
                     UserDict.mk 2 (Py.lit "B") (Py.lit "b@x");
                     UserDict.mk 3 (Py.lit "C") (Py.lit "c@x")].
Proof.
  apply (pages_cover_store 2 2
           [UserDict.mk 1 (Py.lit "A") (Py.lit "a@x");
            UserDict.mk 2 (Py.lit "B") (Py.lit "b@x");
            UserDict.mk 3 (Py.lit "C") (Py.lit "c@x")]); simpl; lia.
Defined.

(** X16. Size of a page: for an offset and a size that are not negative,
    the page [read_users] returns has [limit] records when that many are
    left after the first [skip], and otherwise those that are left. *)
Theorem page_size (skip limit : Z) (db : users_db_t) :
  0 <= skip -> 0 <= limit ->
  Z.of_nat (length (listed skip limit db)) =
    Z.min limit (Z.max 0 (Z.of_nat (length db) - skip)).
Proof.
  intros Hs Hl. rewrite listed_window by lia.
  rewrite length_map, length_firstn, length_skipn. lia.
Qed.

Lemma page_size_witness :
  Z.of_nat (length (listed 2 5 [UserDict.mk 1 (Py.lit "A") (Py.lit "a@x");
                                UserDict.mk 2 (Py.lit "B") (Py.lit "b@x");
                                UserDict.mk 3 (Py.lit "C") (Py.lit "c@x")])) =
    Z.min 5 (Z.max 0 (Z.of_nat 3 - 2)).
Proof.
  apply (page_size 2 5 [UserDict.mk 1 (Py.lit "A") (Py.lit "a@x");
                        UserDict.mk 2 (Py.lit "B") (Py.lit "b@x");
                        UserDict.mk 3 (Py.lit "C") (Py.lit "c@x")]); lia.
Defined.

(** ** Negative offsets and sizes *)

(** X17. A negative [skip] of magnitude at most the number of entries
    starts the page [read_users] returns that many entries before the end.
    The page then has [limit] records when [limit < - skip]; when
    [limit >= - skip] the end of the slice, [skip + limit], is counted from
    the front, and the page has [limit - n] records for a store of [n]
    entries: none for [limit <= n], and the last [- skip] entries for
    [limit >= n - skip]. *)
Theorem listing_negative_skip (skip limit : Z) (db : users_db_t) :
  skip < 0 -> - skip <= Z.of_nat (length db) -> 0 <= limit ->
  let n := Z.of_nat (length db) in
  let tail := skipn (Z.to_nat (n + skip)) db in
  (limit < - skip ->
   listed skip limit db = map to_response (firstn (Z.to_nat limit) tail)) /\
  (- skip <= limit ->
   listed skip limit db = map to_response (firstn (Z.to_nat (limit - n)) tail)) /\
  (- skip <= limit -> limit <= n -> listed skip limit db = []) /\
  (n - skip <= limit -> listed skip limit db = map to_response tail).
Proof.
  intros Hs Hn Hl n tail.
  assert (Hlt : limit < - skip ->
            listed skip limit db = map to_response (firstn (Z.to_nat limit) tail)).
  { intros H. rewrite listed_slice. unfold Py.slice, Py.slice_bound. cbv zeta.
    destruct (Z.ltb_spec skip 0) as [_|?]; [|lia].
    destruct (Z.ltb_spec (skip + limit) 0) as [_|?]; [|lia].
    fold n. unfold tail. do 2 f_equal; [lia | f_equal; lia]. }
  assert (Hge : - skip <= limit ->
            listed skip limit db = map to_response (firstn (Z.to_nat (limit - n)) tail)).
  { intros H. rewrite listed_slice. unfold Py.slice, Py.slice_bound. cbv zeta.
    destruct (Z.ltb_spec skip 0) as [_|?]; [|lia].
    destruct (Z.ltb_spec (skip + limit) 0) as [?|_]; [lia|].
    fold n. replace (Z.to_nat (Z.max (skip + n) 0)) with (Z.to_nat (n + skip)) by lia.
    fold tail. f_equal.
    assert (Ht : length tail = Z.to_nat (- skip)).
    { unfold tail. rewrite length_skipn. unfold n. lia. }
    destruct (Z_le_gt_dec (skip + limit) n) as [Hin|Hout].
    - f_equal. lia.
    - rewrite !firstn_all2; [reflexivity| |]; rewrite Ht; lia. }
  repeat split; try assumption.
  - intros H1 H2. rewrite (Hge H1).
    replace (Z.to_nat (limit - n)) with 0%nat by lia. reflexivity.
  - intros H. rewrite Hge by lia. f_equal. apply firstn_all2.
    unfold tail. rewrite length_skipn. unfold n. lia.
Qed.

Lemma listing_negative_skip_witness :
  (1 < - -2 ->
   listed (-2) 1 [UserDict.mk 1 (Py.lit "A") (Py.lit "a@x");
                  UserDict.mk 2 (Py.lit "B") (Py.lit "b@x");
                  UserDict.mk 3 (Py.lit "C") (Py.lit "c@x")] =
     [UserResponse.mk 2 (Py.lit "B") (Py.lit "b@x")]) /\
  (- -1 <= 3 -> 3 <= 3 ->
   listed (-1) 3 [UserDict.mk 1 (Py.lit "A") (Py.lit "a@x");
                  UserDict.mk 2 (Py.lit "B") (Py.lit "b@x");
                  UserDict.mk 3 (Py.lit "C") (Py.lit "c@x")] = []).
Proof.
  split.
  - apply (proj1 (listing_negative_skip (-2) 1
             [UserDict.mk 1 (Py.lit "A") (Py.lit "a@x");
              UserDict.mk 2 (Py.lit "B") (Py.lit "b@x");
              UserDict.mk 3 (Py.lit "C") (Py.lit "c@x")]
             ltac:(lia) ltac:(simpl; lia) ltac:(lia))).
  - apply (proj1 (proj2 (proj2 (listing_negative_skip (-1) 3
             [UserDict.mk 1 (Py.lit "A") (Py.lit "a@x");
              UserDict.mk 2 (Py.lit "B") (Py.lit "b@x");
              UserDict.mk 3 (Py.lit "C") (Py.lit "c@x")]
             ltac:(lia) ltac:(simpl; lia) ltac:(lia))))).
Defined.

(** X18. With a negative [limit] the page [read_users] returns is not
    always empty: with [skip >= 0] it is empty when [skip + limit >= 0];
    when [skip + limit < 0] the end of the slice is counted from the end of
    the store, and the page holds the entries from [skip] on without the
    last [- (skip + limit)] ones. *)
Theorem listing_negative_limit (skip limit : Z) (db : users_db_t) :
  0 <= skip -> limit < 0 ->
  (0 <= skip + limit -> listed skip limit db = []) /\
  (skip + limit < 0 ->
   listed skip limit db =
     map to_response
       (skipn (Z.to_nat skip)
              (firstn (Z.to_nat (Z.of_nat (length db) + (skip + limit))) db))).
Proof.
  intros Hs Hl. split; intros H; rewrite listed_slice;
    unfold Py.slice, Py.slice_bound; cbv zeta;
    (destruct (Z.ltb_spec skip 0) as [?|_]; [lia|]).
  - destruct (Z.ltb_spec (skip + limit) 0) as [?|_]; [lia|].
    replace (Z.to_nat (Z.min (skip + limit) (Z.of_nat (length db)) -
                       Z.min skip (Z.of_nat (length db)))) with 0%nat by lia.
    reflexivity.
  - destruct (Z.ltb_spec (skip + limit) 0) as [_|?]; [|lia].
    f_equal. rewrite skipn_firstn_comm.
    destruct (Z_le_gt_dec (Z.of_nat (length db)) skip) as [Hout|Hin].
    + rewrite !skipn_all2 by lia. now rewrite !firstn_nil.
    + do 2 f_equal; lia.
Qed.

Lemma listing_negative_limit_witness :
  (0 <= 2 + -1 ->
   listed 2 (-1) [UserDict.mk 1 (Py.lit "A") (Py.lit "a@x");
                  UserDict.mk 2 (Py.lit "B") (Py.lit "b@x");
                  UserDict.mk 3 (Py.lit "C") (Py.lit "c@x")] = []) /\
  (0 + -1 < 0 ->
   listed 0 (-1) [UserDict.mk 1 (Py.lit "A") (Py.lit "a@x");
                  UserDict.mk 2 (Py.lit "B") (Py.lit "b@x");
                  UserDict.mk 3 (Py.lit "C") (Py.lit "c@x")] =
     [UserResponse.mk 1 (Py.lit "A") (Py.lit "a@x");
      UserResponse.mk 2 (Py.lit "B") (Py.lit "b@x")]).
Proof.
  split.
  - apply (proj1 (listing_negative_limit 2 (-1)
             [UserDict.mk 1 (Py.lit "A") (Py.lit "a@x");
              UserDict.mk 2 (Py.lit "B") (Py.lit "b@x");
              UserDict.mk 3 (Py.lit "C") (Py.lit "c@x")]
             ltac:(lia) ltac:(lia))).
  - apply (proj2 (listing_negative_limit 0 (-1)
             [UserDict.mk 1 (Py.lit "A") (Py.lit "a@x");
              UserDict.mk 2 (Py.lit "B") (Py.lit "b@x");
              UserDict.mk 3 (Py.lit "C") (Py.lit "c@x")]
             ltac:(lia) ltac:(lia))).
Defined.

(** ** Creation and listing *)

(** X19. Creation then listing: after a creation request that passes
    validation with a free email, the page [read_users] returns for one
    record at the offset of the former number of entries holds exactly the
    record of the request, and the page after it is empty: the new record
    is the last one of the store. *)
Theorem create_then_list (b : body) (user : UserCreate.t) (db : users_db_t) :
  validate b = inl user ->
  ~ email_taken db (UserCreate.email user) ->
  listed (Z.of_nat (length db)) 1 (snd (app (POST_users b) db)) =
    [UserResponse.mk (UserCreate.id user) (UserCreate.name user)
                     (UserCreate.email user)] /\
  listed (Z.of_nat (length db) + 1) 1 (snd (app (POST_users b) db)) = [] /\
  listed 0 (Z.of_nat (length db) + 1) (snd (app (POST_users b) db)) =
    listed 0 (Z.of_nat (length db)) db ++
    [UserResponse.mk (UserCreate.id user) (UserCreate.name user)
                     (UserCreate.email user)].
Proof.
  intros V He.
  destruct (email_taken_dec db (UserCreate.email user)) as [T|F]; [contradiction|].
  rewrite (app_POST_valid b user db V), (create_user_answer user db F). cbn [snd].
  unfold entry_of. rewrite !listed_window by lia.
  rewrite Z2Nat.inj_add, !Nat2Z.id by lia. simpl (Z.to_nat 1). simpl (Z.to_nat 0).
  repeat split.
  - rewrite skipn_app, skipn_all, Nat.sub_diag. reflexivity.
  - rewrite skipn_all2; [reflexivity|]. rewrite length_app. simpl. lia.
  - rewrite !skipn_O, firstn_all, firstn_all2 by (rewrite length_app; simpl; lia).
    now rewrite map_app.
Qed.

Lemma create_then_list_witness :
  listed (Z.of_nat 1) 1
    (snd (app (POST_users (mk_body (Some 2) (Some (Py.lit "Bob")) (Some (Py.lit "b@x.com"))))
              [UserDict.mk 1 (Py.lit "Ann") (Py.lit "a@x.com")])) =
    [UserResponse.mk 2 (Py.lit "Bob") (Py.lit "b@x.com")] /\
  listed (Z.of_nat 1 + 1) 1
    (snd (app (POST_users (mk_body (Some 2) (Some (Py.lit "Bob")) (Some (Py.lit "b@x.com"))))
              [UserDict.mk 1 (Py.lit "Ann") (Py.lit "a@x.com")])) = [] /\
  listed 0 (Z.of_nat 1 + 1)
    (snd (app (POST_users (mk_body (Some 2) (Some (Py.lit "Bob")) (Some (Py.lit "b@x.com"))))
              [UserDict.mk 1 (Py.lit "Ann") (Py.lit "a@x.com")])) =
    listed 0 (Z.of_nat 1) [UserDict.mk 1 (Py.lit "Ann") (Py.lit "a@x.com")] ++
    [UserResponse.mk 2 (Py.lit "Bob") (Py.lit "b@x.com")].
Proof.
  apply (create_then_list
           (mk_body (Some 2) (Some (Py.lit "Bob")) (Some (Py.lit "b@x.com")))
           (UserCreate.mk 2 (Py.lit "Bob") (Py.lit "b@x.com"))
           [UserDict.mk 1 (Py.lit "Ann") (Py.lit "a@x.com")]).
  - reflexivity.
  - intros (r & [<-|[]] & E). vm_compute in E. discriminate.
Defined.

(** ** Entries that cannot be encoded *)

Lemma forallb_clean_false (l : users_db_t) (u : UserDict.t) :
  In u l -> clean u = false -> forallb clean l = false.
Proof.
  intros Hin Hc. destruct (forallb clean l) eqn:E; [|reflexivity].
  rewrite forallb_forall in E. rewrite (E u Hin) in Hc. discriminate.
Qed.

(** X20. An entry whose name or email holds a surrogate stays in the way:
    once it is in the store, after any sequence of requests the debug dump
    is answered with status 500, and so is every listing whose page holds
    the entry, and the lookup of an id that resolves to it; the health
    check is still answered with 200.  The answer with 500 is the one of
    the global exception handler. *)
Theorem unencodable_entry_breaks_reads
    (reqs : list request) (db : users_db_t) (u : UserDict.t) :
  In u db -> clean u = false ->
  let db' := serve reqs db in
  fst (app GET_debug_users db') = internal_server_error /\
  (forall skip limit,
     In u (Py.slice db' skip (skip + limit)) ->
     fst (app (GET_users (Some skip) (Some limit)) db') = internal_server_error) /\
  (first_with_id db (UserDict.id u) u ->
   fst (app (GET_users_id (UserDict.id u)) db') = internal_server_error) /\
  fst (app GET_health db') = JSONResponse 200 (status_obj "OK").
Proof.
  intros Hin Hc db'.
  assert (Hin' : In u db') by now apply in_serve.
  split; [|split; [|split]].
  - change (fst (app GET_debug_users db'))
      with (render (Return (value (debug_obj (Z.of_nat (length db')) db')))).
    rewrite render_value. cbn [encodable].
    now rewrite (forallb_clean_false db' u Hin' Hc).
  - intros skip limit Hw.
    change (fst (app (GET_users (Some skip) (Some limit)) db'))
      with (fst (run (read_users skip limit) db')).
    rewrite read_users_run. cbn [fst].
    rewrite render_value, encodable_user_list.
    now rewrite (forallb_clean_false _ u Hw Hc).
  - intros Hu.
    assert (Hs : first_with_id db' (UserDict.id u) u).
    { unfold db'. destruct (serve_extends reqs db) as (added & ->).
      now apply first_with_id_app. }
    now rewrite (read_user_answer _ _ u Hs), render_value, encodable_to_response, Hc.
  - reflexivity.
Qed.

Lemma unencodable_entry_breaks_reads_witness :
  fst (app GET_debug_users
           (serve [POST_users (mk_body (Some 2) (Some (Py.lit "Bob")) (Some (Py.lit "b@x.com")))]
                  [UserDict.mk 1 [55296%N] (Py.lit "a@x.com")])) =
    internal_server_error /\
  fst (app (GET_users_id 1)
           (serve [POST_users (mk_body (Some 2) (Some (Py.lit "Bob")) (Some (Py.lit "b@x.com")))]
                  [UserDict.mk 1 [55296%N] (Py.lit "a@x.com")])) =
    internal_server_error /\
  fst (app GET_health
           (serve [POST_users (mk_body (Some 2) (Some (Py.lit "Bob")) (Some (Py.lit "b@x.com")))]
                  [UserDict.mk 1 [55296%N] (Py.lit "a@x.com")])) =
    JSONResponse 200 (status_obj "OK").
Proof.
  destruct (unencodable_entry_breaks_reads
              [POST_users (mk_body (Some 2) (Some (Py.lit "Bob")) (Some (Py.lit "b@x.com")))]
              [UserDict.mk 1 [55296%N] (Py.lit "a@x.com")]
              (UserDict.mk 1 [55296%N] (Py.lit "a@x.com")))
    as (H1 & _ & H3 & H4).
  - simpl. auto.
  - reflexivity.
  - refine (conj H1 (conj (H3 _) H4)).
    exists [], []. repeat split. constructor.
Defined.
